(** * Best-execution price selection: a shallow embedding of the Go sources

    The development follows the three packages of the repository:
    - [exchange]: the [Exchange] interface and the Coinbase / Kraken adapters
      (the part of [GetPrices] that runs after the JSON body is decoded);
    - [order]: [OrderService.Buy] and [OrderService.Sell];
    - [orders]: the HTTP handlers [BuyHandler] and [SellHandler].

    Go's [float64] is modelled by the IEEE-754 binary64 instance of the
    standard library's [spec_float]; comparisons and the product are the
    specification functions [SFltb], [SFeqb], [SFcompare] and [SFmul]. *)

From Stdlib Require Import ZArith List Ascii String Bool Lia Permutation.
From Stdlib Require Import Floats.SpecFloat.
Import ListNotations.
Local Open Scope string_scope.
Local Open Scope Z_scope.

(** ** float64 *)

Module F64.

Definition float64 : Type := spec_float.

Definition prec : Z := 53.
Definition emax : Z := 1024.

(** A value of the Go type is a [spec_float] that is a well-formed
    binary64 datum. *)
Definition is_float64 (x : float64) : bool := valid_binary prec emax x.

Definition of_Z (z : Z) : float64 := binary_normalize prec emax z 0 false.

(** [m * 2^e], correctly rounded. *)
Definition of_scaled (m e : Z) : float64 := binary_normalize prec emax m e false.

(** The literal [0.0] (and the untyped constant [0]). *)
Definition zero : float64 := S754_zero false.
Definition neg_zero : float64 := S754_zero true.

(** The literal [1e18]: [10^18 = 5^18 * 2^18] has a 42-bit odd part, so the
    constant is exact in binary64. *)
Definition lit_1e18 : float64 := Eval vm_compute in of_Z (10 ^ 18).

Definition mul (x y : float64) : float64 := SFmul prec emax x y.

(** Go's [<], [>] and [==] on float64. *)
Definition lt (x y : float64) : bool := SFltb x y.
Definition gt (x y : float64) : bool :=
  match SFcompare x y with
  | Some Gt => true
  | _ => false
  end.
Definition eq (x y : float64) : bool := SFeqb x y.
Definition le (x y : float64) : bool := SFleb x y.

Definition is_nan (x : float64) : bool :=
  match x with
  | S754_nan => true
  | _ => false
  end.

Definition is_zero (x : float64) : bool :=
  match x with
  | S754_zero _ => true
  | _ => false
  end.

End F64.

Import F64.

Declare Scope f64_scope.
Delimit Scope f64_scope with f64.
Infix "<?" := F64.lt : f64_scope.
Infix ">?" := F64.gt : f64_scope.
Infix "=?" := F64.eq : f64_scope.
Infix "*" := F64.mul : f64_scope.

(** Go's [error] interface values: [None] is [nil], [Some msg] an error
    whose [Error()] text is [msg]. *)
Definition error : Type := option string.

(** What running a function body yields: a normal return or a run-time
    panic (a failed type assertion [x.(string)]). *)
Inductive outcome (A : Type) : Type :=
| Returns (a : A)
| Panics (why : string).
Arguments Returns {A} a.
Arguments Panics {A} why.

Definition len {A : Type} (l : list A) : Z := Z.of_nat (List.length l).

(** ** package exchange *)

Module exchange.

(** The [Exchange] interface: a value of the interface is the pair of its
    two methods.  [GetPrices] gives (buy price, sell price, error) for a
    symbol; the context argument only carries cancellation and is left
    out. *)
Record Exchange : Type := {
  GetPrices : string -> float64 * float64 * error;
  GetName : string
}.

(** Decoded JSON values stored in an [any]. *)
#[local] Set Warnings "-register-all".
Inductive any : Type :=
| AString (s : string)
| ANumber (f : float64)
| ABool (b : bool)
| ANull
| AArray (l : list any)
| AObject (l : list (string * any)).
#[local] Set Warnings "register-all".

(** The type assertion [v.(string)]. *)
Definition assert_string (v : any) : outcome string :=
  match v with
  | AString s => Returns s
  | _ => Panics "interface conversion: interface {} is not string"
  end.

(** Everything that happens before the price fields are read: building the
    request, the round trip, decoding the body into the response struct. *)
Inductive fetched (R : Type) : Type :=
| RequestFailed (err : string)
| TransportFailed (err : string)
| DecodeFailed (err : string)
| Decoded (r : R).
Arguments RequestFailed {R} err.
Arguments TransportFailed {R} err.
Arguments DecodeFailed {R} err.
Arguments Decoded {R} r.

Record CoinbaseResponse : Type := {
  cb_Bids : list (list any);
  cb_Asks : list (list any)
}.

Record ResultBlock : Type := {
  Asks : list (list any);
  Bids : list (list any)
}.

(** [Result] is a Go map; it is given as the sequence of entries in the
    order the [range] loop visits them. *)
Record KrakenResponse : Type := {
  Error : list string;
  Result : list (string * ResultBlock)
}.

(** [len(b) == 0 || len(b[0]) == 0] *)
Definition side_missing (b : list (list any)) : bool :=
  (len b =? 0) || (len (nth 0 b []) =? 0).

(** [b[0][0]], read only after [side_missing b] was found false. *)
Definition top_of_book (b : list (list any)) : any :=
  nth 0 (nth 0 b []) ANull.

Section Adapters.

(** [strconv.ParseFloat(s, 64)]: the parsed value and the error. *)
Variable ParseFloat : string -> float64 * error.

Definition CoinbaseExchange_GetPrices (resp : fetched CoinbaseResponse)
  : outcome (float64 * float64 * error) :=
  match resp with
  | RequestFailed err =>
      Returns (zero, zero, Some ("failed to create request: " ++ err))
  | TransportFailed err =>
      Returns (zero, zero, Some ("failed to get price from coinbase: " ++ err))
  | DecodeFailed err =>
      Returns (zero, zero, Some ("failed to decode coinbase response: " ++ err))
  | Decoded coinbaseResponse =>
      if side_missing (cb_Bids coinbaseResponse) then
        Returns (zero, zero, Some "Failed to find bid prices in coinbase response")
      else if side_missing (cb_Asks coinbaseResponse) then
        Returns (zero, zero, Some "Failed to find ask prices in coinbase response")
      else
        match assert_string (top_of_book (cb_Bids coinbaseResponse)) with
        | Panics why => Panics why
        | Returns sb =>
            match ParseFloat sb with
            | (_, Some err) =>
                Returns (zero, zero,
                  Some ("failed to parse bid price string from coinbase response: " ++ err))
            | (bid, None) =>
                match assert_string (top_of_book (cb_Asks coinbaseResponse)) with
                | Panics why => Panics why
                | Returns sa =>
                    match ParseFloat sa with
                    | (_, Some err) =>
                        Returns (zero, zero,
                          Some ("failed to parse ask price string from coinbase response: " ++ err))
                    | (ask, None) => Returns (ask, bid, None)
                    end
                end
            end
        end
  end.

(** The [for _, aResult := range krakenResponse.Result] loop, with the
    current values of the variables [ask] and [bid]. *)
Fixpoint Kraken_range (entries : list (string * ResultBlock)) (ask bid : float64)
  : outcome (float64 * float64 * error) :=
  match entries with
  | [] => Returns (ask, bid, None)
  | (_, aResult) :: rest =>
      if side_missing (Bids aResult) then
        Returns (zero, zero, Some "Failed to find bid prices in kraken response")
      else if side_missing (Asks aResult) then
        Returns (zero, zero, Some "Failed to find ask prices in kraken response")
      else
        match assert_string (top_of_book (Bids aResult)) with
        | Panics why => Panics why
        | Returns sb =>
            match ParseFloat sb with
            | (_, Some err) =>
                Returns (zero, zero,
                  Some ("failed to parse bid price string from kraken response: " ++ err))
            | (bid', None) =>
                match assert_string (top_of_book (Asks aResult)) with
                | Panics why => Panics why
                | Returns sa =>
                    match ParseFloat sa with
                    | (_, Some err) =>
                        Returns (zero, zero,
                          Some ("failed to parse ask price string from kraken response: " ++ err))
                    | (ask', None) => Kraken_range rest ask' bid'
                    end
                end
            end
        end
  end.

Definition KrakenExchange_GetPrices (resp : fetched KrakenResponse)
  : outcome (float64 * float64 * error) :=
  match resp with
  | RequestFailed err =>
      Returns (zero, zero, Some ("failed to create request: " ++ err))
  | TransportFailed err =>
      Returns (zero, zero, Some ("failed to get price from kraken: " ++ err))
  | DecodeFailed err =>
      Returns (zero, zero, Some ("failed to decode kraken response: " ++ err))
  | Decoded krakenResponse =>
      if negb (len (Error krakenResponse) =? 0) then
        Returns (zero, zero,
          Some ("Kraken price fetch failed with errors: "
                ++ String.concat ", " (Error krakenResponse)))
      else
        (* var ask, bid float64 *)
        Kraken_range (Result krakenResponse) zero zero
  end.

End Adapters.

Definition CoinbaseExchange_GetName : string := "coinbase".
Definition KrakenExchange_GetName : string := "kraken".

(** The test double of the repository's test file. *)
Record MockExchange : Type := {
  Name : string;
  BuyPrice : float64;
  SellPrice : float64;
  Err : error
}.

Definition Mock (m : MockExchange) : Exchange :=
  {| GetPrices := fun _ => (BuyPrice m, SellPrice m, Err m);
     GetName := Name m |}.

End exchange.

Import exchange.

(** ** package order *)

Module order.

Local Open Scope f64_scope.

(** [OrderService] handles order execution logic. *)
Record OrderService : Type := {
  exchanges : list Exchange
}.

Definition NewOrderService (exchanges : list Exchange) : OrderService :=
  {| exchanges := exchanges |}.

(** The loop variables [bestPrice] and [bestExchanges]. *)
Definition best : Type := (float64 * list string)%type.

(** One iteration of the loop of [Buy].  A failed fetch is logged and the
    loop continues with the state unchanged. *)
Definition Buy_iter (symbol : string) (st : best) (exchange : Exchange) : best :=
  let '(bestPrice, bestExchanges) := st in
  let '(price, _, err) := GetPrices exchange symbol in
  match err with
  | Some _ => st
  | None =>
      if price <? bestPrice then (price, [GetName exchange])
      else if price =? bestPrice then
        (bestPrice, (bestExchanges ++ [GetName exchange])%list)
      else st
  end.

Definition Buy_range (symbol : string) (exchanges : list Exchange) : best :=
  fold_left (Buy_iter symbol) exchanges (lit_1e18, []).

(** [Buy] executes a buy order for the given amount and symbol.  The
    slice result is [None] for Go's [nil]. *)
Definition Buy (o : OrderService) (amount : float64) (symbol : string)
  : float64 * option (list string) * error :=
  let '(bestPrice, bestExchanges) := Buy_range symbol (exchanges o) in
  if bestPrice =? lit_1e18 then
    (zero, None, Some ("failed to find best price for " ++ symbol)%string)
  else
    let usdAmount := amount * bestPrice in
    (usdAmount, Some bestExchanges, None).

Definition Sell_iter (symbol : string) (st : best) (exchange : Exchange) : best :=
  let '(bestPrice, bestExchanges) := st in
  let '(_, price, err) := GetPrices exchange symbol in
  match err with
  | Some _ => st
  | None =>
      if price >? bestPrice then (price, [GetName exchange])
      else if price =? bestPrice then
        (bestPrice, (bestExchanges ++ [GetName exchange])%list)
      else st
  end.

Definition Sell_range (symbol : string) (exchanges : list Exchange) : best :=
  fold_left (Sell_iter symbol) exchanges (zero, []).

(** [Sell] executes a sell order for the given amount and symbol. *)
Definition Sell (o : OrderService) (amount : float64) (symbol : string)
  : float64 * option (list string) * error :=
  let '(bestPrice, bestExchanges) := Sell_range symbol (exchanges o) in
  if bestPrice =? zero then
    (zero, None, Some ("failed to find best price for " ++ symbol)%string)
  else
    let usdAmount := amount * bestPrice in
    (usdAmount, Some bestExchanges, None).

End order.

Import order.

(** ** package orders *)

Module orders.

Local Open Scope f64_scope.

Definition StatusOK : Z := 200.
Definition StatusBadRequest : Z := 400.
Definition StatusInternalServerError : Z := 500.

(** The two [fiber.Map] shapes the handlers serialise, and the plain-text
    body fiber's default error handler writes when a handler returns an
    error. *)
Inductive Body : Type :=
| ErrorBody (error : string)
| OrderBody (coin : string) (amount usdAmount : float64)
            (exchange : option (list string))
| TextBody (text : string).

Record Response : Type := {
  Status : Z;
  JSON : Body
}.

(** [encoding/json] refuses the floats that are NaN or infinite; its error
    names the value as [strconv.FormatFloat] prints it. *)
Definition unsupported_value (f : float64) : option string :=
  match f with
  | S754_nan => Some "NaN"%string
  | S754_infinity false => Some "+Inf"%string
  | S754_infinity true => Some "-Inf"%string
  | _ => None
  end.

(** The answer to a handler that returns the error of [c.JSON]: status 500
    and the error text as the body. *)
Definition json_failure (value : string) : Response :=
  {| Status := StatusInternalServerError;
     JSON := TextBody ("json: unsupported value: " ++ value) |}.

(** [c.JSON(fiber.Map{"coin": ..., "amount": ..., "usdAmount": ...,
    "exchange": ...})], the status left at 200.  The keys of a map are
    encoded in sorted order (amount, coin, exchange, usdAmount) and the
    encoding fails at the first float it refuses; the handler returns that
    error. *)
Definition JSON_order (coin : string) (amount usdAmount : float64)
    (exchange : option (list string)) : Response :=
  match unsupported_value amount with
  | Some value => json_failure value
  | None =>
      match unsupported_value usdAmount with
      | Some value => json_failure value
      | None =>
          {| Status := StatusOK; JSON := OrderBody coin amount usdAmount exchange |}
      end
  end.

(** The request as the handlers see it: the query arguments in the order
    of the query string. *)
Record Ctx : Type := {
  QueryArgs : list (string * string)
}.

(** [QueryArgs().Peek(key)]: the first value stored under [key]. *)
Fixpoint Peek (args : list (string * string)) (key : string) : option string :=
  match args with
  | [] => None
  | (k, v) :: rest => if String.eqb k key then Some v else Peek rest key
  end.

(** [c.Query(key)]: the value, or the empty string when the key is absent. *)
Definition Query (c : Ctx) (key : string) : string :=
  match Peek (QueryArgs c) key with
  | Some v => v
  | None => ""%string
  end.

(** Invocations of the order service made while a request is handled. *)
Inductive Call : Type :=
| CallBuy (amount : float64) (symbol : string)
| CallSell (amount : float64) (symbol : string).

Definition call_amount (c : Call) : float64 :=
  match c with
  | CallBuy a _ | CallSell a _ => a
  end.

Definition call_symbol (c : Call) : string :=
  match c with
  | CallBuy _ s | CallSell _ s => s
  end.

Record OrderController : Type := {
  orderService : OrderService
}.

Definition NewOrderController (orderService : OrderService) : OrderController :=
  {| orderService := orderService |}.

Section Handlers.

Variable ParseFloat : string -> float64 * error.

(** [c.QueryFloat(key, defaultValue)]: the parsed query value, or the
    default when [strconv.ParseFloat] reports an error. *)
Definition QueryFloat (c : Ctx) (key : string) (defaultValue : float64) : float64 :=
  match ParseFloat (Query c key) with
  | (value, None) => value
  | (_, Some _) => defaultValue
  end.

(** [BuyHandler] handles the /buy endpoint.  The second component lists
    the calls made to the order service. *)
Definition BuyHandler (oc : OrderController) (c : Ctx) : Response * list Call :=
  let amount := QueryFloat c "amount" zero in
  if amount =? zero then
    ({| Status := StatusBadRequest; JSON := ErrorBody "invalid amount" |}, [])
  else
    let symbol := Query c "symbol" in
    let '(usdAmount, exchanges, err) := Buy (orderService oc) amount symbol in
    (match err with
     | Some msg =>
         {| Status := StatusInternalServerError; JSON := ErrorBody msg |}
     | None => JSON_order symbol amount usdAmount exchanges
     end,
     [CallBuy amount symbol]).

Definition SellHandler (oc : OrderController) (c : Ctx) : Response * list Call :=
  let amount := QueryFloat c "amount" zero in
  if amount =? zero then
    ({| Status := StatusBadRequest; JSON := ErrorBody "invalid amount" |}, [])
  else
    let symbol := Query c "symbol" in
    let '(usdAmount, exchanges, err) := Sell (orderService oc) amount symbol in
    (match err with
     | Some msg =>
         {| Status := StatusInternalServerError; JSON := ErrorBody msg |}
     | None => JSON_order symbol amount usdAmount exchanges
     end,
     [CallSell amount symbol]).

End Handlers.

End orders.

Import orders.

(** ** A decimal fragment of strconv.ParseFloat

    The handlers and adapters are stated for an arbitrary [ParseFloat].  To
    run them on concrete requests, [ParseFloat_dec] implements the function
    on plain decimal literals [[sign] digits [. digits]] of at most 15
    digits: there the digit string and the power of ten are both exact
    binary64 values, so one correctly rounded division gives the parsed value.
    Any other string is reported as a syntax error. *)

Module strconv.

Definition digit (c : ascii) : option Z :=
  let n := Z.of_nat (nat_of_ascii c) in
  if (48 <=? n) && (n <=? 57) then Some (n - 48) else None.

(** Reads a run of digits: the accumulated value, the number of digits read
    and the unread rest. *)
Fixpoint digits (s : string) (acc n : Z) : Z * Z * string :=
  match s with
  | String c rest =>
      match digit c with
      | Some d => digits rest (10 * acc + d) (n + 1)
      | None => (acc, n, s)
      end
  | EmptyString => (acc, n, s)
  end.

Definition syntax_error : float64 * error := (zero, Some "invalid syntax").

Definition ParseFloat_dec (s : string) : float64 * error :=
  let '(neg, body) :=
    match s with
    | String "-"%char r => (true, r)
    | String "+"%char r => (false, r)
    | _ => (false, s)
    end in
  let '(ip, ni, rest) := digits body 0 0 in
  let '(m, nd, k, rest') :=
    match rest with
    | String "."%char r => let '(m, nf, r') := digits r ip 0 in (m, ni + nf, nf, r')
    | _ => (ip, ni, 0, rest)
    end in
  match rest' with
  | EmptyString =>
      if (nd =? 0) || (15 <? nd) then syntax_error
      else
        let mant := if neg then SFopp (of_Z m) else of_Z m in
        (SFdiv prec emax mant (of_Z (10 ^ k)), None)
  | _ => syntax_error
  end.

End strconv.

(** ** Vocabulary for the statements *)

Module Quote.

Local Open Scope f64_scope.

(** The three results of one adapter call for [symbol]. *)
Definition ask (symbol : string) (e : Exchange) : float64 :=
  fst (fst (GetPrices e symbol)).
Definition bid (symbol : string) (e : Exchange) : float64 :=
  snd (fst (GetPrices e symbol)).
Definition succeeded (symbol : string) (e : Exchange) : bool :=
  match snd (GetPrices e symbol) with
  | None => true
  | Some _ => false
  end.

(** Successful adapters whose price compares equal ([==]) to [p]. *)
Definition tied_ask (symbol : string) (p : float64) (e : Exchange) : bool :=
  succeeded symbol e && (ask symbol e =? p).
Definition tied_bid (symbol : string) (p : float64) (e : Exchange) : bool :=
  succeeded symbol e && (bid symbol e =? p).

(** [p] is an ask of a successful adapter and no successful adapter asks
    strictly less; asks that are numbers are all at least [p]. *)
Definition is_min_ask (symbol : string) (exs : list Exchange) (p : float64) : Prop :=
  (exists e, In e exs /\ succeeded symbol e = true /\ ask symbol e = p) /\
  (forall e, In e exs -> succeeded symbol e = true ->
             (ask symbol e <? p) = false /\
             (is_nan (ask symbol e) = false -> le p (ask symbol e) = true)).

Definition is_max_bid (symbol : string) (exs : list Exchange) (p : float64) : Prop :=
  (exists e, In e exs /\ succeeded symbol e = true /\ bid symbol e = p) /\
  (forall e, In e exs -> succeeded symbol e = true ->
             (bid symbol e >? p) = false /\
             (is_nan (bid symbol e) = false -> le (bid symbol e) p = true)).

(** The message of the error returned by [Buy] and [Sell]. *)
Definition no_best_price (symbol : string) : string :=
  "failed to find best price for " ++ symbol.

End Quote.

Import Quote.

(** ** The running-best loop, once for both directions

    [Buy_iter] and [Sell_iter] differ only in the comparison and in the side
    of the quote they read; [select_iter] is their common shape. *)

Module Selection.

Local Open Scope f64_scope.

Section Select.

Variable better : float64 -> float64 -> bool.
Variable ok : Exchange -> bool.
Variable side : Exchange -> float64.

Definition select_iter (st : best) (e : Exchange) : best :=
  let '(bestPrice, bestExchanges) := st in
  if ok e then
    if better (side e) bestPrice then (side e, [GetName e])
    else if side e =? bestPrice then
      (bestPrice, (bestExchanges ++ [GetName e])%list)
    else st
  else st.

Definition tied (p : float64) (e : Exchange) : bool :=
  ok e && (side e =? p).

(** What the loop variables satisfy after the adapters [seen]. *)
Definition select_inv (sentinel : float64) (seen : list Exchange) (st : best) : Prop :=
  let '(p, ws) := st in
  (p = sentinel \/
   (better p sentinel = true /\
    exists e, In e seen /\ ok e = true /\ side e = p)) /\
  (forall e, In e seen -> ok e = true -> better (side e) p = false) /\
  ws = map GetName (filter (tied p) seen).

End Select.

End Selection.

Import Selection.

(** ** Vocabulary for the handlers *)

Module Boundary.

Local Open Scope f64_scope.

(** The amount parameter is missing, unparseable, or parses to 0. *)
Definition invalid_amount (ParseFloat : string -> float64 * error) (c : Ctx) : Prop :=
  Peek (QueryArgs c) "amount" = None \/
  snd (ParseFloat (Query c "amount")) <> None \/
  (fst (ParseFloat (Query c "amount")) =? zero) = true.

(** The response of a rejected request. *)
Definition invalid_amount_response : Response :=
  {| Status := StatusBadRequest; JSON := ErrorBody "invalid amount" |}.

End Boundary.

Import Boundary.

(** ** Vocabulary for the adapters *)

Module Book.

Definition is_string (v : any) : bool :=
  match v with
  | AString _ => true
  | _ => false
  end.

(** A side of a book cut down to the one field the adapters read: the first
    field of the first level. *)
Definition first_field (b : list (list any)) : list (list any) :=
  match b with
  | (v :: _) :: _ => [[v]]
  | _ => []
  end.

Definition first_fields_coinbase (r : CoinbaseResponse) : CoinbaseResponse :=
  {| cb_Bids := first_field (cb_Bids r); cb_Asks := first_field (cb_Asks r) |}.

Definition first_fields_block (r : ResultBlock) : ResultBlock :=
  {| Asks := first_field (Asks r); Bids := first_field (Bids r) |}.

Definition first_fields_kraken (r : KrakenResponse) : KrakenResponse :=
  {| Error := Error r;
     Result := map (fun kr => (fst kr, first_fields_block (snd kr))) (Result r) |}.

Section Prices.

Variable ParseFloat : string -> float64 * error.

(** The price a side of a book yields: the side is present, its first field
    is a string, and the string parses. *)
Definition side_price (b : list (list any)) : option float64 :=
  if side_missing b then None
  else
    match top_of_book b with
    | AString s =>
        match ParseFloat s with
        | (v, None) => Some v
        | (_, Some _) => None
        end
    | _ => None
    end.

(** The (ask, bid) pair an entry of the Kraken result map yields. *)
Definition entry_quote (r : ResultBlock) : option (float64 * float64) :=
  match side_price (Bids r), side_price (Asks r) with
  | Some b, Some a => Some (a, b)
  | _, _ => None
  end.

(** Reading the entry runs into a failed type assertion: both sides are
    present and the bid field is not a string, or the bid parses and the ask
    field is not a string. *)
Definition entry_panics (bids asks : list (list any)) : bool :=
  negb (side_missing bids) && negb (side_missing asks) &&
  (negb (is_string (top_of_book bids)) ||
   match side_price bids with
   | Some _ => negb (is_string (top_of_book asks))
   | None => false
   end).

End Prices.

End Book.

Import Book.

(** ** Quotes that can win *)

Module Usable.

Local Open Scope f64_scope.

(** A successful quote that beats the initial value of [bestPrice]. *)
Definition usable_ask (symbol : string) (e : Exchange) : bool :=
  succeeded symbol e && (ask symbol e <? lit_1e18).
Definition usable_bid (symbol : string) (e : Exchange) : bool :=
  succeeded symbol e && (bid symbol e >? zero).

(** Two adapters that [Buy] (resp. [Sell]) cannot tell apart: same name, same
    success, and on success the same ask (resp. bid). *)
Definition same_for_Buy (symbol : string) (e e' : Exchange) : Prop :=
  GetName e = GetName e' /\ succeeded symbol e = succeeded symbol e' /\
  (succeeded symbol e = true -> ask symbol e = ask symbol e').
Definition same_for_Sell (symbol : string) (e e' : Exchange) : Prop :=
  GetName e = GetName e' /\ succeeded symbol e = succeeded symbol e' /\
  (succeeded symbol e = true -> bid symbol e = bid symbol e').

End Usable.

Import Usable.

(** ** Comparing two runs of the selection loop *)

Module Agreement.

Local Open Scope f64_scope.

Section Select.

Variable better : float64 -> float64 -> bool.
Variable ok : Exchange -> bool.
Variable side : Exchange -> float64.
Variable sentinel : float64.

(** A quote that beats the initial value of the running best. *)
Definition can_win (e : Exchange) : bool := ok e && better (side e) sentinel.

(** Two states of the loop with the same running best, and with the same
    winners once the best has left its initial value. *)
Definition agree (st st' : best) : Prop :=
  fst st = fst st' /\
  (fst st = sentinel \/ (better (fst st) sentinel = true /\ snd st = snd st')).

End Select.

End Agreement.

(** ** Concrete adapters and requests used in the examples *)

Module Scenario.

Definition one : float64 := Eval vm_compute in of_Z 1.
Definition half : float64 := Eval vm_compute in of_scaled 1 (-1).
Definition minus_one : float64 := Eval vm_compute in of_Z (-1).
Definition f9900 : float64 := Eval vm_compute in of_Z 9900.
Definition f10000 : float64 := Eval vm_compute in of_Z 10000.
Definition f5000 : float64 := Eval vm_compute in of_Z 5000.
Definition f2e18 : float64 := Eval vm_compute in of_Z (2 * 10 ^ 18).

Definition quoting (name : string) (buy sell : float64) : Exchange :=
  Mock {| Name := name; BuyPrice := buy; SellPrice := sell; Err := None |}.

Definition down (name : string) : Exchange :=
  Mock {| Name := name; BuyPrice := zero; SellPrice := zero;
          Err := Some (name ++ " error") |}.

Definition service (exs : list Exchange) : OrderController :=
  NewOrderController (NewOrderService exs).

Definition request (args : list (string * string)) : Ctx :=
  {| QueryArgs := args |}.

Definition f4950 : float64 := Eval vm_compute in of_Z 4950.
Definition f9800 : float64 := Eval vm_compute in of_Z 9800.

(** The largest finite float64 and its opposite. *)
Definition max_float : float64 := Eval vm_compute in SFmax_float prec emax.
Definition neg_max_float : float64 := Eval vm_compute in SFopp max_float.

(** One side of an order book with a single level [price, volume, ...]. *)
Definition level (price : string) : list (list any) :=
  [[AString price; AString "1.5"; ANumber one]].

(** A deeper book: the level above followed by a second level. *)
Definition deep (price next : string) : list (list any) :=
  [AString price; AString "1.5"; ANumber one] :: level next.

End Scenario.

(** * Properties *)

(** ** The order on float64 *)

Module F64Facts.

Local Open Scope f64_scope.

Ltac sf_destruct x := destruct x as [[|]|[|]| |[|] ? ?].

(** Replaces integer comparisons by their specifications. *)
Ltac cmp_specs :=
  repeat match goal with
  | H : context [Pos.compare_cont Eq ?a ?b] |- _ =>
      change (Pos.compare_cont Eq a b) with (Pos.compare a b) in H
  | |- context [Pos.compare_cont Eq ?a ?b] =>
      change (Pos.compare_cont Eq a b) with (Pos.compare a b)
  end;
  repeat match goal with
  | H : context [Z.compare ?a ?b] |- _ => destruct (Z.compare_spec a b)
  | |- context [Z.compare ?a ?b] => destruct (Z.compare_spec a b)
  | H : context [Pos.compare ?a ?b] |- _ => destruct (Pos.compare_spec a b)
  | |- context [Pos.compare ?a ?b] => destruct (Pos.compare_spec a b)
  end.

Ltac sf_solve :=
  unfold lt, gt, eq, le, SFltb, SFeqb, SFleb, SFcompare in *;
  cmp_specs; simpl in *; subst; try congruence; try lia; try reflexivity.

Lemma compare_antisym x y c :
  SFcompare x y = Some c -> SFcompare y x = Some (CompOpp c).
Proof.
  sf_destruct x; sf_destruct y; simpl; intros H; inversion H; clear H;
    try reflexivity; f_equal; cmp_specs; simpl; subst; try reflexivity; lia.
Qed.

Lemma gt_lt x y : (x >? y) = (y <? x).
Proof.
  unfold gt, lt, SFltb.
  destruct (SFcompare x y) as [c|] eqn:E.
  - rewrite (compare_antisym _ _ _ E). destruct c; reflexivity.
  - destruct (SFcompare y x) as [c|] eqn:E'; [|reflexivity].
    rewrite (compare_antisym _ _ _ E') in E. discriminate.
Qed.

Lemma lt_trans a b c : (a <? b) = true -> (b <? c) = true -> (a <? c) = true.
Proof.
  sf_destruct a; sf_destruct b; sf_destruct c; simpl; intros H1 H2; sf_solve.
Qed.

Lemma lt_irrefl a : (a <? a) = false.
Proof. sf_destruct a; sf_solve. Qed.

Lemma eq_lt_trans a b c : (a =? b) = true -> (b <? c) = true -> (a <? c) = true.
Proof.
  sf_destruct a; sf_destruct b; sf_destruct c; simpl; intros H1 H2; sf_solve.
Qed.

Lemma lt_eq_trans a b c : (a <? b) = true -> (b =? c) = true -> (a <? c) = true.
Proof.
  sf_destruct a; sf_destruct b; sf_destruct c; simpl; intros H1 H2; sf_solve.
Qed.

Lemma eq_trans a b c : (a =? b) = true -> (b =? c) = true -> (a =? c) = true.
Proof.
  sf_destruct a; sf_destruct b; sf_destruct c; simpl; intros H1 H2; sf_solve.
Qed.

Lemma eq_sym a b : (a =? b) = (b =? a).
Proof.
  unfold eq, SFeqb.
  destruct (SFcompare a b) as [c|] eqn:E.
  - rewrite (compare_antisym _ _ _ E). destruct c; reflexivity.
  - destruct (SFcompare b a) as [c|] eqn:E'; [|reflexivity].
    rewrite (compare_antisym _ _ _ E') in E. discriminate.
Qed.

Lemma eq_refl_iff a : (a =? a) = negb (is_nan a).
Proof. sf_destruct a; sf_solve. Qed.

Lemma lt_number_l a b : (a <? b) = true -> (a =? a) = true.
Proof. rewrite eq_refl_iff. sf_destruct a; sf_destruct b; simpl; intros; sf_solve. Qed.

Lemma lt_number_r a b : (a <? b) = true -> (b =? b) = true.
Proof. rewrite eq_refl_iff. sf_destruct a; sf_destruct b; simpl; intros; sf_solve. Qed.

Lemma lt_not_eq a b : (a <? b) = true -> (a =? b) = false.
Proof. unfold lt, eq, SFltb, SFeqb. destruct (SFcompare a b) as [[]|]; congruence. Qed.

Lemma lt_not_eq' a b : (a <? b) = true -> (b =? a) = false.
Proof. intros H. rewrite eq_sym. now apply lt_not_eq. Qed.

(** Two numbers neither of which is below the other compare equal. *)
Lemma lt_total a b :
  (a =? a) = true -> (b =? b) = true ->
  (a <? b) = false -> (b <? a) = false -> (a =? b) = true.
Proof.
  rewrite !eq_refl_iff.
  sf_destruct a; sf_destruct b; simpl; intros; sf_solve.
Qed.

Lemma not_lt_le a b :
  (a =? a) = true -> (b =? b) = true -> (a <? b) = false -> le b a = true.
Proof.
  rewrite !eq_refl_iff.
  sf_destruct a; sf_destruct b; simpl; intros; sf_solve.
Qed.

(** [==] is bit equality except between the two zeros. *)
Lemma eq_bits a b : (a =? b) = true -> is_zero a = false -> a = b.
Proof.
  sf_destruct a; sf_destruct b; simpl; intros; sf_solve.
Qed.

Lemma eq_is_zero a b : (a =? b) = true -> is_zero a = is_zero b.
Proof. sf_destruct a; sf_destruct b; simpl; intros; sf_solve. Qed.

Lemma eq_congr_r a b c : (b =? c) = true -> (a =? b) = (a =? c).
Proof.
  intros H. destruct (a =? b) eqn:E1.
  - symmetry. eapply eq_trans; eauto.
  - destruct (a =? c) eqn:E2; [|reflexivity].
    rewrite <- E1. eapply eq_trans; [eassumption|]. now rewrite eq_sym.
Qed.

End F64Facts.

(** ** The selection loop *)

Module SelectionFacts.

Local Open Scope f64_scope.

Section Select.

Variable better : float64 -> float64 -> bool.
Variable ok : Exchange -> bool.
Variable side : Exchange -> float64.
Variable sentinel : float64.

Hypothesis better_trans :
  forall a b c, better a b = true -> better b c = true -> better a c = true.
Hypothesis better_irrefl : forall a, better a a = false.
Hypothesis eq_better :
  forall a b c, (a =? b) = true -> better b c = true -> better a c = true.
Hypothesis better_number : forall a b, better a b = true -> (a =? a) = true.
Hypothesis sentinel_number : (sentinel =? sentinel) = true.

Local Abbreviation iter := (select_iter better ok side).
Local Abbreviation inv := (select_inv better ok side sentinel).
Local Abbreviation tied := (Selection.tied ok side).

Lemma filter_tied_none p seen :
  (forall e, In e seen -> ok e = true -> (side e =? p) = false) ->
  filter (tied p) seen = [].
Proof.
  induction seen as [|x seen IH]; intros H; simpl; [reflexivity|].
  unfold Selection.tied at 1.
  destruct (ok x) eqn:Hok; simpl.
  - rewrite (H x (or_introl Logic.eq_refl) Hok). apply IH.
    intros e He. apply H. now right.
  - apply IH. intros e He. apply H. now right.
Qed.

Lemma inv_init : inv [] (sentinel, []).
Proof. simpl. repeat split; auto. intros e []. Qed.

(** One more adapter. *)
Lemma inv_step seen st e :
  inv seen st -> inv (seen ++ [e]) (iter st e).
Proof.
  destruct st as [p ws]. unfold select_inv, select_iter.
  intros (Hp & Hlow & Hws).
  assert (Hnum : (p =? p) = true).
  { destruct Hp as [-> | [Hb _]]; [assumption | eauto]. }
  destruct (ok e) eqn:Hok.
  - destruct (better (side e) p) eqn:Hb; [| destruct (side e =? p) eqn:He].
    + (* strictly better: the winners restart *)
      split; [| split].
      * destruct Hp as [-> | [Hps _]].
        -- right. split; [assumption|]. exists e. rewrite in_app_iff. simpl. auto.
        -- right. split; [eauto|]. exists e. rewrite in_app_iff. simpl. auto.
      * intros x Hx Hokx. apply in_app_or in Hx. destruct Hx as [Hx | [<- | []]].
        -- destruct (better (side x) (side e)) eqn:Hxe; [|reflexivity].
           rewrite <- (Hlow x Hx Hokx). symmetry. eauto.
        -- apply better_irrefl.
      * rewrite filter_app. simpl. unfold Selection.tied at 2.
        rewrite Hok, (better_number _ _ Hb). simpl.
        rewrite filter_tied_none; [reflexivity|].
        intros x Hx Hokx. destruct (side x =? side e) eqn:Hxe; [|reflexivity].
        rewrite <- (Hlow x Hx Hokx). symmetry. eauto.
    + (* tie: the name is appended *)
      split; [| split].
      * destruct Hp as [-> | (Hps & x & Hx & Hokx & Hsx)]; [now left | right].
        split; [assumption|]. exists x. rewrite in_app_iff. auto.
      * intros x Hx Hokx. apply in_app_or in Hx. destruct Hx as [Hx | [<- | []]]; auto.
      * rewrite filter_app, map_app. simpl. unfold Selection.tied at 2.
        rewrite Hok, He. simpl. now rewrite Hws.
    + split; [| split].
      * destruct Hp as [-> | (Hps & x & Hx & Hokx & Hsx)]; [now left | right].
        split; [assumption|]. exists x. rewrite in_app_iff. auto.
      * intros x Hx Hokx. apply in_app_or in Hx. destruct Hx as [Hx | [<- | []]]; auto.
      * rewrite filter_app. simpl. unfold Selection.tied at 2.
        rewrite Hok, He. simpl. now rewrite app_nil_r.
  - split; [| split].
    + destruct Hp as [-> | (Hps & x & Hx & Hokx & Hsx)]; [now left | right].
      split; [assumption|]. exists x. rewrite in_app_iff. auto.
    + intros x Hx Hokx. apply in_app_or in Hx. destruct Hx as [Hx | [<- | []]]; auto.
      congruence.
    + rewrite filter_app. simpl. unfold Selection.tied at 2.
      rewrite Hok. simpl. now rewrite app_nil_r.
Qed.

Lemma inv_fold exs : forall seen st,
  inv seen st -> inv (seen ++ exs) (fold_left iter exs st).
Proof.
  induction exs as [|e exs IH]; intros seen st H; simpl.
  - now rewrite app_nil_r.
  - replace (seen ++ e :: exs)%list with ((seen ++ [e]) ++ exs)%list
      by (rewrite <- app_assoc; reflexivity).
    apply IH. now apply inv_step.
Qed.

Lemma select_spec exs : inv exs (fold_left iter exs (sentinel, [])).
Proof. apply (inv_fold exs [] _ inv_init). Qed.

(** The running best is never NaN. *)
Lemma select_number exs :
  let p := fst (fold_left iter exs (sentinel, [])) in (p =? p) = true.
Proof.
  pose proof (select_spec exs) as H.
  destruct (fold_left iter exs (sentinel, [])) as [p ws]. simpl in *.
  destruct H as ([-> | [Hb _]] & _); eauto.
Qed.

End Select.

End SelectionFacts.

(** ** [Buy] and [Sell] as instances of the selection loop *)

Module OrderFacts.

Import F64Facts SelectionFacts.
Local Open Scope f64_scope.

Lemma Buy_iter_select symbol st e :
  Buy_iter symbol st e = select_iter lt (succeeded symbol) (ask symbol) st e.
Proof.
  unfold Buy_iter, select_iter, succeeded, ask.
  destruct st as [p ws]. destruct (GetPrices e symbol) as [[a b] [msg|]]; reflexivity.
Qed.

Lemma Sell_iter_select symbol st e :
  Sell_iter symbol st e = select_iter gt (succeeded symbol) (bid symbol) st e.
Proof.
  unfold Sell_iter, select_iter, succeeded, bid.
  destruct st as [p ws]. destruct (GetPrices e symbol) as [[a b] [msg|]]; reflexivity.
Qed.

Lemma fold_left_pointwise {A B : Type} (f g : A -> B -> A) :
  (forall a b, f a b = g a b) ->
  forall l a, fold_left f l a = fold_left g l a.
Proof.
  intros H l. induction l as [|b l IH]; intros a; simpl; [reflexivity|].
  now rewrite H, IH.
Qed.

Lemma gt_trans a b c : (a >? b) = true -> (b >? c) = true -> (a >? c) = true.
Proof. rewrite !gt_lt. intros H1 H2. eapply lt_trans; eassumption. Qed.

Lemma gt_irrefl a : (a >? a) = false.
Proof. rewrite gt_lt. apply lt_irrefl. Qed.

Lemma eq_gt_trans a b c : (a =? b) = true -> (b >? c) = true -> (a >? c) = true.
Proof.
  rewrite !gt_lt. intros H1 H2. eapply lt_eq_trans; [eassumption|].
  now rewrite eq_sym.
Qed.

Lemma gt_number a b : (a >? b) = true -> (a =? a) = true.
Proof. rewrite gt_lt. apply lt_number_r. Qed.

Lemma gt_zero_not_zero p : (p >? zero) = true -> is_zero p = false.
Proof. destruct p as [[|]|[|]| |[|] m e]; simpl; intros H; try reflexivity; discriminate. Qed.

Lemma gt_not_eq a b : (a >? b) = true -> (a =? b) = false.
Proof. rewrite gt_lt, eq_sym. apply lt_not_eq. Qed.

(** The state of the loop of [Buy] after all adapters. *)
Lemma Buy_range_inv symbol exs :
  select_inv lt (succeeded symbol) (ask symbol) lit_1e18 exs (Buy_range symbol exs).
Proof.
  unfold Buy_range.
  rewrite (fold_left_pointwise _ _ (Buy_iter_select symbol)).
  apply select_spec.
  - exact lt_trans.
  - exact lt_irrefl.
  - exact eq_lt_trans.
  - exact lt_number_l.
  - reflexivity.
Qed.

Lemma Sell_range_inv symbol exs :
  select_inv gt (succeeded symbol) (bid symbol) zero exs (Sell_range symbol exs).
Proof.
  unfold Sell_range.
  rewrite (fold_left_pointwise _ _ (Sell_iter_select symbol)).
  apply select_spec.
  - exact gt_trans.
  - exact gt_irrefl.
  - exact eq_gt_trans.
  - exact gt_number.
  - reflexivity.
Qed.

(** What is known of a return of [Buy] without error. *)
Lemma Buy_ok o amount symbol usd ws :
  Buy o amount symbol = (usd, ws, None) ->
  exists p w,
    Buy_range symbol (exchanges o) = (p, w) /\ ws = Some w /\ usd = amount * p /\
    (p <? lit_1e18) = true /\
    (exists e, In e (exchanges o) /\ succeeded symbol e = true /\ ask symbol e = p) /\
    (forall e, In e (exchanges o) -> succeeded symbol e = true ->
               (ask symbol e <? p) = false) /\
    w = map GetName (filter (tied_ask symbol p) (exchanges o)).
Proof.
  unfold Buy. pose proof (Buy_range_inv symbol (exchanges o)) as H.
  destruct (Buy_range symbol (exchanges o)) as [p w]. simpl in H.
  destruct H as (Hp & Hlow & Hw).
  destruct (p =? lit_1e18) eqn:E; intros [= <- <-].
  exists p, w. destruct Hp as [-> | [Hb He]]; [discriminate|].
  repeat split; assumption.
Qed.

Lemma Sell_ok o amount symbol usd ws :
  Sell o amount symbol = (usd, ws, None) ->
  exists p w,
    Sell_range symbol (exchanges o) = (p, w) /\ ws = Some w /\ usd = amount * p /\
    (p >? zero) = true /\
    (exists e, In e (exchanges o) /\ succeeded symbol e = true /\ bid symbol e = p) /\
    (forall e, In e (exchanges o) -> succeeded symbol e = true ->
               (bid symbol e >? p) = false) /\
    w = map GetName (filter (tied_bid symbol p) (exchanges o)).
Proof.
  unfold Sell. pose proof (Sell_range_inv symbol (exchanges o)) as H.
  destruct (Sell_range symbol (exchanges o)) as [p w]. simpl in H.
  destruct H as (Hp & Hlow & Hw).
  destruct (p =? zero) eqn:E; intros [= <- <-].
  exists p, w. destruct Hp as [-> | [Hb He]]; [discriminate|].
  repeat split; assumption.
Qed.

(** A usable quote makes [Buy] succeed. *)
Lemma Buy_succeeds o amount symbol e0 :
  In e0 (exchanges o) -> succeeded symbol e0 = true ->
  (ask symbol e0 <? lit_1e18) = true ->
  exists p w, Buy o amount symbol = (amount * p, Some w, None).
Proof.
  intros Hin Hok Hlt. unfold Buy.
  pose proof (Buy_range_inv symbol (exchanges o)) as H.
  destruct (Buy_range symbol (exchanges o)) as [p w]. simpl in H.
  destruct H as (Hp & Hlow & Hw).
  destruct Hp as [-> | [Hb He]].
  - rewrite (Hlow e0 Hin Hok) in Hlt. discriminate.
  - rewrite (lt_not_eq _ _ Hb). eauto.
Qed.

Lemma Sell_succeeds o amount symbol e0 :
  In e0 (exchanges o) -> succeeded symbol e0 = true ->
  (bid symbol e0 >? zero) = true ->
  exists p w, Sell o amount symbol = (amount * p, Some w, None).
Proof.
  intros Hin Hok Hlt. unfold Sell.
  pose proof (Sell_range_inv symbol (exchanges o)) as H.
  destruct (Sell_range symbol (exchanges o)) as [p w]. simpl in H.
  destruct H as (Hp & Hlow & Hw).
  destruct Hp as [-> | [Hb He]].
  - rewrite (Hlow e0 Hin Hok) in Hlt. discriminate.
  - rewrite (gt_not_eq _ _ Hb). eauto.
Qed.

(** Adapters that all fail leave the loop variables untouched. *)
Lemma Buy_range_all_failed symbol exs : forall st,
  (forall e, In e exs -> succeeded symbol e = false) ->
  fold_left (Buy_iter symbol) exs st = st.
Proof.
  induction exs as [|e exs IH]; intros st H; simpl; [reflexivity|].
  assert (He : Buy_iter symbol st e = st).
  { pose proof (H e (or_introl Logic.eq_refl)) as Hf.
    unfold Buy_iter, succeeded in *. destruct st as [p ws].
    destruct (GetPrices e symbol) as [[a b] [msg|]]; [reflexivity|discriminate]. }
  rewrite He. apply IH. intros x Hx. apply H. now right.
Qed.

Lemma Sell_range_all_failed symbol exs : forall st,
  (forall e, In e exs -> succeeded symbol e = false) ->
  fold_left (Sell_iter symbol) exs st = st.
Proof.
  induction exs as [|e exs IH]; intros st H; simpl; [reflexivity|].
  assert (He : Sell_iter symbol st e = st).
  { pose proof (H e (or_introl Logic.eq_refl)) as Hf.
    unfold Sell_iter, succeeded in *. destruct st as [p ws].
    destruct (GetPrices e symbol) as [[a b] [msg|]]; [reflexivity|discriminate]. }
  rewrite He. apply IH. intros x Hx. apply H. now right.
Qed.

Lemma Permutation_filter_names (f g : Exchange -> bool) l l' :
  Permutation l l' -> (forall e, f e = g e) ->
  Permutation (map GetName (filter f l)) (map GetName (filter g l')).
Proof.
  intros HP Hfg. rewrite (filter_ext f g Hfg).
  apply Permutation_map.
  induction HP as [| x l l' HP IH | x y l | l l' l'' HP1 IH1 HP2 IH2]; simpl.
  - constructor.
  - destruct (g x); [now constructor | assumption].
  - destruct (g x), (g y); try reflexivity. constructor.
  - now transitivity (filter g l').
Qed.

End OrderFacts.

(** * The claims *)

Import F64Facts SelectionFacts OrderFacts Scenario.
Local Open Scope f64_scope.

(** ** C1: best price and permutations of the adapter list *)

(** C1, counterexample.  One adapter answers with the ask 2e18.  It is the
    minimum ask among the successful adapters, yet [Buy] reports that no
    price was found: an ask that is not below the initial value 1e18 of
    [bestPrice] is never selected. *)
Lemma Buy_misses_min_ask_above_1e18 :
  let o := NewOrderService [quoting "coinbase" f2e18 f2e18] in
  is_min_ask "BTC" (exchanges o) f2e18 /\
  Buy o one "BTC" = (zero, None, Some "failed to find best price for BTC"%string).
Proof.
  intros o. split; [|reflexivity].
  split.
  - eexists. split; [left; reflexivity|]. split; reflexivity.
  - intros e [<- | []] _. split; [reflexivity | intros _; reflexivity].
Qed.

(** C1, as amended.  When some successful adapter asks less than 1e18, [Buy]
    returns the amount times the minimum ask among the successful adapters;
    when some successful adapter bids more than 0, [Sell] returns the amount
    times the maximum bid.  For a permutation of the adapter list the winning
    price compares equal (and is the same datum unless it is a zero), the
    winners are a permutation of each other, and each winners list is the
    list of names of the tied adapters in the order of its adapter list. *)
Theorem best_price_under_permutation o o' amount symbol :
  Permutation (exchanges o) (exchanges o') ->
  ((exists e, In e (exchanges o) /\ succeeded symbol e = true /\
              (ask symbol e <? lit_1e18) = true) ->
   exists p p' ws ws',
     Buy o amount symbol = (amount * p, Some ws, None) /\
     Buy o' amount symbol = (amount * p', Some ws', None) /\
     is_min_ask symbol (exchanges o) p /\
     (p =? p') = true /\ (is_zero p = false -> p' = p) /\
     Permutation ws ws' /\
     ws = map GetName (filter (tied_ask symbol p) (exchanges o)) /\
     ws' = map GetName (filter (tied_ask symbol p') (exchanges o'))) /\
  ((exists e, In e (exchanges o) /\ succeeded symbol e = true /\
              (bid symbol e >? zero) = true) ->
   exists p ws ws',
     Sell o amount symbol = (amount * p, Some ws, None) /\
     Sell o' amount symbol = (amount * p, Some ws', None) /\
     is_max_bid symbol (exchanges o) p /\
     Permutation ws ws' /\
     ws = map GetName (filter (tied_bid symbol p) (exchanges o)) /\
     ws' = map GetName (filter (tied_bid symbol p) (exchanges o'))).
Proof.
  intros HP. split.
  - intros (e0 & Hin & Hok & Hlt).
    destruct (Buy_succeeds o amount symbol e0 Hin Hok Hlt) as (p0 & w0 & HB).
    destruct (Buy_succeeds o' amount symbol e0 (Permutation_in _ HP Hin) Hok Hlt)
      as (p0' & w0' & HB').
    destruct (Buy_ok _ _ _ _ _ HB)
      as (p & w & _ & [= <-] & Hu & Hb & (e & He & Hoke & Hpe) & Hlow & Hw).
    destruct (Buy_ok _ _ _ _ _ HB')
      as (p' & w' & _ & [= <-] & Hu' & Hb' & (e' & He' & Hoke' & Hpe') & Hlow' & Hw').
    rewrite Hu in HB. rewrite Hu' in HB'.
    assert (Hnp : (p =? p) = true) by (eapply lt_number_l; eassumption).
    assert (Hnp' : (p' =? p') = true) by (eapply lt_number_l; eassumption).
    assert (Hpp' : (p =? p') = true).
    { apply lt_total; try assumption.
      - rewrite <- Hpe. apply Hlow'; [apply (Permutation_in _ HP He) | assumption].
      - rewrite <- Hpe'. apply Hlow; [|assumption].
        apply (Permutation_in _ (Permutation_sym HP) He'). }
    exists p, p', w0, w0'. repeat split; try assumption.
    + exists e. auto.
    + now apply Hlow.
    + intros Hn. apply not_lt_le; try assumption.
      * rewrite eq_refl_iff, Hn. reflexivity.
      * now apply Hlow.
    + intros Hz. symmetry. now apply eq_bits.
    + rewrite Hw, Hw'. apply Permutation_filter_names; [assumption|].
      intros x. unfold tied_ask. f_equal. now apply eq_congr_r.
  - intros (e0 & Hin & Hok & Hlt).
    destruct (Sell_succeeds o amount symbol e0 Hin Hok Hlt) as (p0 & w0 & HB).
    destruct (Sell_succeeds o' amount symbol e0 (Permutation_in _ HP Hin) Hok Hlt)
      as (p0' & w0' & HB').
    destruct (Sell_ok _ _ _ _ _ HB)
      as (p & w & _ & [= <-] & Hu & Hb & (e & He & Hoke & Hpe) & Hlow & Hw).
    destruct (Sell_ok _ _ _ _ _ HB')
      as (p' & w' & _ & [= <-] & Hu' & Hb' & (e' & He' & Hoke' & Hpe') & Hlow' & Hw').
    rewrite Hu in HB. rewrite Hu' in HB'.
    assert (Hnp : (p =? p) = true) by (eapply gt_number; eassumption).
    assert (Hnp' : (p' =? p') = true) by (eapply gt_number; eassumption).
    assert (Hpp' : (p =? p') = true).
    { apply lt_total; try assumption.
      - rewrite <- gt_lt, <- Hpe'. apply Hlow; [|assumption].
        apply (Permutation_in _ (Permutation_sym HP) He').
      - rewrite <- gt_lt, <- Hpe. apply Hlow'; [|assumption].
        apply (Permutation_in _ HP He). }
    assert (Heq : p' = p).
    { symmetry. apply eq_bits; [assumption|]. now apply gt_zero_not_zero. }
    rewrite Heq in HB', Hw'.
    exists p, w0, w0'. repeat split; try assumption.
    + exists e. auto.
    + now apply Hlow.
    + intros Hn. apply not_lt_le; try assumption.
      * rewrite eq_refl_iff, Hn. reflexivity.
      * rewrite <- gt_lt. now apply Hlow.
    + rewrite Hw, Hw'. now apply Permutation_filter_names.
Qed.

(** Scenario B run in both adapter orders, and its mirror for [Sell]. *)
Lemma best_price_under_permutation_witness :
  let cb := quoting "coinbase" f10000 f9900 in
  let kr := quoting "kraken" f10000 f9900 in
  Permutation [cb; kr] [kr; cb] /\
  (exists p p' ws ws',
     Buy (NewOrderService [cb; kr]) one "BTC" = (one * p, Some ws, None) /\
     Buy (NewOrderService [kr; cb]) one "BTC" = (one * p', Some ws', None) /\
     is_min_ask "BTC" [cb; kr] p /\
     (p =? p') = true /\ (is_zero p = false -> p' = p) /\
     Permutation ws ws' /\
     ws = map GetName (filter (tied_ask "BTC" p) [cb; kr]) /\
     ws' = map GetName (filter (tied_ask "BTC" p') [kr; cb])) /\
  (exists p ws ws',
     Sell (NewOrderService [cb; kr]) one "BTC" = (one * p, Some ws, None) /\
     Sell (NewOrderService [kr; cb]) one "BTC" = (one * p, Some ws', None) /\
     is_max_bid "BTC" [cb; kr] p /\
     Permutation ws ws' /\
     ws = map GetName (filter (tied_bid "BTC" p) [cb; kr]) /\
     ws' = map GetName (filter (tied_bid "BTC" p) [kr; cb])).
Proof.
  intros cb kr.
  assert (HP : Permutation [cb; kr] [kr; cb]) by apply perm_swap.
  destruct (best_price_under_permutation
              (NewOrderService [cb; kr]) (NewOrderService [kr; cb]) one "BTC" HP)
    as [HB HS].
  split; [exact HP|]. split.
  - apply HB. exists cb. split; [left; reflexivity|]. split; reflexivity.
  - apply HS. exists cb. split; [left; reflexivity|]. split; reflexivity.
Defined.

(** ** C2: every adapter fails *)

(** C2.  When the fetch of every adapter fails, [Buy] and [Sell] both return
    the amount 0, the nil slice and the error naming the requested symbol:
    there is no execution result and no partial data. *)
Theorem all_adapters_fail o amount symbol :
  (forall e, In e (exchanges o) -> succeeded symbol e = false) ->
  Buy o amount symbol
    = (zero, None, Some ("failed to find best price for " ++ symbol)%string) /\
  Sell o amount symbol
    = (zero, None, Some ("failed to find best price for " ++ symbol)%string).
Proof.
  intros H. unfold Buy, Sell, Buy_range, Sell_range.
  rewrite (Buy_range_all_failed symbol _ _ H), (Sell_range_all_failed symbol _ _ H).
  split; reflexivity.
Qed.

(** Scenario E: both sources down. *)
Lemma all_adapters_fail_witness :
  let o := NewOrderService [down "coinbase"; down "kraken"] in
  (forall e, In e (exchanges o) -> succeeded "BTC" e = false) /\
  Buy o one "BTC" = (zero, None, Some "failed to find best price for BTC"%string) /\
  Sell o one "BTC" = (zero, None, Some "failed to find best price for BTC"%string).
Proof.
  intros o.
  assert (H : forall e, In e (exchanges o) -> succeeded "BTC" e = false).
  { intros e [<- | [<- | []]]; reflexivity. }
  split; [exact H|]. exact (all_adapters_fail o one "BTC" H).
Defined.

(** ** C3: ties *)

(** C3.  In every execution result the winners list is the list of the names
    of the successful adapters whose price on the compared side is [==] to the
    winning price, one entry per such adapter and in the order of the adapter
    list; an adapter whose price is the very datum of the winning price is
    always among them. *)
Theorem winners_are_the_ties o amount symbol usd ws :
  (Buy o amount symbol = (usd, Some ws, None) ->
   exists p,
     Buy_range symbol (exchanges o) = (p, ws) /\ usd = amount * p /\
     ws = map GetName (filter (tied_ask symbol p) (exchanges o)) /\
     (forall e, In e (exchanges o) -> succeeded symbol e = true ->
                ask symbol e = p ->
                tied_ask symbol p e = true /\ In (GetName e) ws)) /\
  (Sell o amount symbol = (usd, Some ws, None) ->
   exists p,
     Sell_range symbol (exchanges o) = (p, ws) /\ usd = amount * p /\
     ws = map GetName (filter (tied_bid symbol p) (exchanges o)) /\
     (forall e, In e (exchanges o) -> succeeded symbol e = true ->
                bid symbol e = p ->
                tied_bid symbol p e = true /\ In (GetName e) ws)).
Proof.
  split; intros H.
  - destruct (Buy_ok _ _ _ _ _ H) as (p & w & Hr & [= <-] & Hu & Hb & _ & _ & Hw).
    exists p. do 3 (split; [assumption|]).
    intros e Hin Hok Hpe.
    assert (Ht : tied_ask symbol p e = true).
    { unfold tied_ask. rewrite Hok, Hpe. simpl. eapply lt_number_l; eassumption. }
    split; [exact Ht|]. rewrite Hw. apply in_map, filter_In. now split.
  - destruct (Sell_ok _ _ _ _ _ H) as (p & w & Hr & [= <-] & Hu & Hb & _ & _ & Hw).
    exists p. do 3 (split; [assumption|]).
    intros e Hin Hok Hpe.
    assert (Ht : tied_bid symbol p e = true).
    { unfold tied_bid. rewrite Hok, Hpe. simpl. eapply gt_number; eassumption. }
    split; [exact Ht|]. rewrite Hw. apply in_map, filter_In. now split.
Qed.

(** Scenario B and its mirror: both sources tie. *)
Lemma winners_are_the_ties_witness :
  let cb := quoting "coinbase" f10000 f9900 in
  let kr := quoting "kraken" f10000 f9900 in
  let o := NewOrderService [cb; kr] in
  (exists p,
     Buy_range "BTC" (exchanges o) = (p, ["coinbase"; "kraken"]%string) /\
     f10000 = one * p /\
     ["coinbase"; "kraken"]%string
       = map GetName (filter (tied_ask "BTC" p) (exchanges o)) /\
     (forall e, In e (exchanges o) -> succeeded "BTC" e = true ->
                ask "BTC" e = p ->
                tied_ask "BTC" p e = true /\
                In (GetName e) ["coinbase"; "kraken"]%string)) /\
  (exists p,
     Sell_range "BTC" (exchanges o) = (p, ["coinbase"; "kraken"]%string) /\
     f9900 = one * p /\
     ["coinbase"; "kraken"]%string
       = map GetName (filter (tied_bid "BTC" p) (exchanges o)) /\
     (forall e, In e (exchanges o) -> succeeded "BTC" e = true ->
                bid "BTC" e = p ->
                tied_bid "BTC" p e = true /\
                In (GetName e) ["coinbase"; "kraken"]%string)).
Proof.
  intros cb kr o. split.
  - apply (proj1 (winners_are_the_ties o one "BTC" f10000 ["coinbase"; "kraken"]%string)).
    reflexivity.
  - apply (proj2 (winners_are_the_ties o one "BTC" f9900 ["coinbase"; "kraken"]%string)).
    reflexivity.
Defined.

(** ** C4: the winners of an execution result *)

(** C4.  Every return of [Buy] or [Sell] without error carries a winners
    list with at least one name, and every name in it is the name of an
    adapter of the service that succeeded with a price [==] to the winning
    price; except when the winning price is a zero, the adapter's price is the
    same datum as the winning price. *)
Theorem execution_result_winners o amount symbol usd ws :
  (Buy o amount symbol = (usd, ws, None) ->
   exists p w,
     ws = Some w /\ Buy_range symbol (exchanges o) = (p, w) /\ usd = amount * p /\
     (1 <= List.length w)%nat /\
     forall name, In name w ->
       exists e, In e (exchanges o) /\ GetName e = name /\
                 succeeded symbol e = true /\ (ask symbol e =? p) = true /\
                 (is_zero p = false -> ask symbol e = p)) /\
  (Sell o amount symbol = (usd, ws, None) ->
   exists p w,
     ws = Some w /\ Sell_range symbol (exchanges o) = (p, w) /\ usd = amount * p /\
     (1 <= List.length w)%nat /\
     forall name, In name w ->
       exists e, In e (exchanges o) /\ GetName e = name /\
                 succeeded symbol e = true /\ (bid symbol e =? p) = true /\
                 bid symbol e = p).
Proof.
  split; intros H.
  - destruct (Buy_ok _ _ _ _ _ H)
      as (p & w & Hr & -> & Hu & Hb & (e & He & Hok & Hpe) & _ & Hw).
    exists p, w. repeat split; try assumption.
    + assert (Hin : In (GetName e) w).
      { rewrite Hw. apply in_map, filter_In. split; [assumption|].
        unfold tied_ask. rewrite Hok, Hpe. simpl. eapply lt_number_l; eassumption. }
      destruct w; [destruct Hin | simpl; lia].
    + intros name Hn. rewrite Hw in Hn. apply in_map_iff in Hn.
      destruct Hn as (x & Hname & Hx). apply filter_In in Hx.
      destruct Hx as [Hx Ht]. unfold tied_ask in Ht.
      apply andb_true_iff in Ht. destruct Ht as [Hokx Heq].
      exists x. repeat split; try assumption.
      intros Hz. apply eq_bits; [assumption|].
      now rewrite (eq_is_zero _ _ Heq).
  - destruct (Sell_ok _ _ _ _ _ H)
      as (p & w & Hr & -> & Hu & Hb & (e & He & Hok & Hpe) & _ & Hw).
    exists p, w. repeat split; try assumption.
    + assert (Hin : In (GetName e) w).
      { rewrite Hw. apply in_map, filter_In. split; [assumption|].
        unfold tied_bid. rewrite Hok, Hpe. simpl. eapply gt_number; eassumption. }
      destruct w; [destruct Hin | simpl; lia].
    + intros name Hn. rewrite Hw in Hn. apply in_map_iff in Hn.
      destruct Hn as (x & Hname & Hx). apply filter_In in Hx.
      destruct Hx as [Hx Ht]. unfold tied_bid in Ht.
      apply andb_true_iff in Ht. destruct Ht as [Hokx Heq].
      exists x. repeat split; try assumption.
      apply eq_bits; [assumption|].
      rewrite (eq_is_zero _ _ Heq). now apply gt_zero_not_zero.
Qed.

(** Scenario A for [Buy] and scenario D for [Sell]. *)
Lemma execution_result_winners_witness :
  let oa := NewOrderService [quoting "coinbase" f9900 f9900;
                             quoting "kraken" f10000 f10000] in
  let od := NewOrderService [down "coinbase"; quoting "kraken" f9900 f9900] in
  (exists p w,
     Some ["coinbase"%string] = Some w /\
     Buy_range "BTC" (exchanges oa) = (p, w) /\ f9900 = one * p /\
     (1 <= List.length w)%nat /\
     forall name, In name w ->
       exists e, In e (exchanges oa) /\ GetName e = name /\
                 succeeded "BTC" e = true /\ (ask "BTC" e =? p) = true /\
                 (is_zero p = false -> ask "BTC" e = p)) /\
  (exists p w,
     Some ["kraken"%string] = Some w /\
     Sell_range "BTC" (exchanges od) = (p, w) /\ f9900 = one * p /\
     (1 <= List.length w)%nat /\
     forall name, In name w ->
       exists e, In e (exchanges od) /\ GetName e = name /\
                 succeeded "BTC" e = true /\ (bid "BTC" e =? p) = true /\
                 bid "BTC" e = p).
Proof.
  intros oa od. split.
  - apply (proj1 (execution_result_winners oa one "BTC" f9900 (Some ["coinbase"%string]))).
    reflexivity.
  - apply (proj2 (execution_result_winners od one "BTC" f9900 (Some ["kraken"%string]))).
    reflexivity.
Defined.

(** ** C5: the text of the failure *)

(** C5, counterexample.  With both sources down [bestPrice] keeps its initial
    value, and the error text is not the one the claim gives. *)
Lemma failure_text_is_not_no_price_available :
  let o := NewOrderService [down "coinbase"; down "kraken"] in
  Buy_range "BTC" (exchanges o) = (lit_1e18, []) /\
  Sell_range "BTC" (exchanges o) = (zero, []) /\
  snd (Buy o one "BTC") <> Some "no price available for BTC"%string /\
  snd (Sell o one "BTC") <> Some "no price available for BTC"%string.
Proof.
  intros o. repeat split; try reflexivity; discriminate.
Qed.

(** C5, as amended.  When [bestPrice] still compares equal to its initial
    value after the loop (1e18 in [Buy], 0 in [Sell]), the error returned is
    the text "failed to find best price for " followed by the requested
    symbol. *)
Theorem failure_text o amount symbol :
  ((fst (Buy_range symbol (exchanges o)) =? lit_1e18) = true ->
   Buy o amount symbol
     = (zero, None, Some ("failed to find best price for " ++ symbol)%string)) /\
  ((fst (Sell_range symbol (exchanges o)) =? zero) = true ->
   Sell o amount symbol
     = (zero, None, Some ("failed to find best price for " ++ symbol)%string)).
Proof.
  unfold Buy, Sell.
  destruct (Buy_range symbol (exchanges o)) as [pb wb].
  destruct (Sell_range symbol (exchanges o)) as [ps ws].
  simpl. split; intros ->; reflexivity.
Qed.

Lemma failure_text_witness :
  let o := NewOrderService [down "coinbase"; down "kraken"] in
  Buy o one "BTC" = (zero, None, Some "failed to find best price for BTC"%string) /\
  Sell o one "BTC" = (zero, None, Some "failed to find best price for BTC"%string).
Proof.
  intros o. split.
  - apply (proj1 (failure_text o one "BTC")). reflexivity.
  - apply (proj2 (failure_text o one "BTC")). reflexivity.
Defined.

(** ** C6: adapters and placeholder prices *)

Module ExchangeFacts.

Section Adapters.

Variable ParseFloat : string -> float64 * error.

(** A successful return of the Coinbase adapter carries the two parsed
    top-of-book prices. *)
Lemma Coinbase_success resp a b :
  CoinbaseExchange_GetPrices ParseFloat resp = Returns (a, b, None) ->
  exists r sa sb,
    resp = Decoded r /\
    side_missing (cb_Bids r) = false /\ side_missing (cb_Asks r) = false /\
    top_of_book (cb_Bids r) = AString sb /\ ParseFloat sb = (b, None) /\
    top_of_book (cb_Asks r) = AString sa /\ ParseFloat sa = (a, None).
Proof.
  destruct resp as [err | err | err | r]; simpl; try discriminate.
  destruct (side_missing (cb_Bids r)) eqn:Hb; [discriminate|].
  destruct (side_missing (cb_Asks r)) eqn:Ha; [discriminate|].
  destruct (top_of_book (cb_Bids r)) eqn:Tb; simpl; try discriminate.
  destruct (ParseFloat s) as [vb [eb|]] eqn:Pb; [discriminate|].
  destruct (top_of_book (cb_Asks r)) eqn:Ta; simpl; try discriminate.
  destruct (ParseFloat s0) as [va [ea|]] eqn:Pa; [discriminate|].
  intros [= <- <-]. exists r, s0, s. repeat split; assumption.
Qed.

(** A successful return of the Kraken loop is either the pair it was
    started with, when the map has no entry, or the two parsed top-of-book
    prices of the entry visited last. *)
Lemma Kraken_range_success entries : forall a0 b0 a b,
  Kraken_range ParseFloat entries a0 b0 = Returns (a, b, None) ->
  (entries = [] /\ a = a0 /\ b = b0) \/
  exists k r sa sb,
    last entries (k, r) = (k, r) /\ In (k, r) entries /\
    top_of_book (Bids r) = AString sb /\ ParseFloat sb = (b, None) /\
    top_of_book (Asks r) = AString sa /\ ParseFloat sa = (a, None).
Proof.
  induction entries as [|[k r] rest IH]; intros a0 b0 a b; simpl.
  - intros [= <- <-]. left. auto.
  - destruct (side_missing (Bids r)) eqn:Hb; [discriminate|].
    destruct (side_missing (Asks r)) eqn:Ha; [discriminate|].
    destruct (top_of_book (Bids r)) eqn:Tb; simpl; try discriminate.
    destruct (ParseFloat s) as [vb [eb|]] eqn:Pb; [discriminate|].
    destruct (top_of_book (Asks r)) eqn:Ta; simpl; try discriminate.
    destruct (ParseFloat s0) as [va [ea|]] eqn:Pa; [discriminate|].
    intros H. right. destruct (IH _ _ _ _ H) as [(-> & -> & ->) | Hlast].
    + exists k, r, s0, s. simpl. repeat split; auto.
    + destruct Hlast as (k' & r' & sa & sb & Hl & Hin & Hrest).
      exists k', r', sa, sb. split; [|split; [now right | assumption]].
      destruct rest; [destruct Hin | exact Hl].
Qed.

End Adapters.

End ExchangeFacts.

(** C6.  The decoded Kraken body with an empty error list and an empty result
    map makes [KrakenExchange.GetPrices] return the pair (0, 0) with a nil
    error: the loop that checks and parses the entries has nothing to visit
    and the zero values of [ask] and [bid] are returned as a success.  The
    Coinbase adapter returns an error when its book is empty. *)
Theorem Kraken_empty_result_returns_zero_prices ParseFloat :
  KrakenExchange_GetPrices ParseFloat (Decoded {| Error := []; Result := [] |})
    = Returns (zero, zero, None) /\
  CoinbaseExchange_GetPrices ParseFloat (Decoded {| cb_Bids := []; cb_Asks := [] |})
    = Returns (zero, zero, Some "Failed to find bid prices in coinbase response"%string).
Proof. split; reflexivity. Qed.

(** What follows in [Buy]: the price 0 of an adapter that found no entry
    beats the ask of every other source. *)
Example placeholder_wins_Buy :
  let kraken := quoting KrakenExchange_GetName zero zero in
  Buy (NewOrderService [quoting "coinbase" f9900 f9900; kraken]) one "BTC"
    = (zero, Some ["kraken"%string], None).
Proof. reflexivity. Qed.

(** ** C7: what the handlers reject *)

(** C7, counterexample.  The request [/buy?amount=-1] has a negative amount
    and no symbol; the handler calls [Buy] with the amount -1 and the empty
    symbol. *)
Lemma BuyHandler_passes_negative_amount_and_empty_symbol :
  let oc := service [quoting "coinbase" f9900 f9900; quoting "kraken" f10000 f10000] in
  let c := request [("amount", "-1")]%string in
  snd (BuyHandler strconv.ParseFloat_dec oc c) = [CallBuy minus_one ""] /\
  (minus_one <? zero) = true /\
  Status (fst (BuyHandler strconv.ParseFloat_dec oc c)) = StatusOK.
Proof. intros oc c. repeat split. Qed.

(** C7, as amended.  A request whose amount does not parse, or parses to a
    value [==] 0, is answered with status 400 without any call to the order
    service, so [Buy] and [Sell] are never called with an amount equal to
    zero. *)
Theorem handlers_reject_zero_amount ParseFloat oc c :
  ((snd (ParseFloat (Query c "amount")) <> None \/
    (fst (ParseFloat (Query c "amount")) =? zero) = true) ->
   BuyHandler ParseFloat oc c = (invalid_amount_response, []) /\
   SellHandler ParseFloat oc c = (invalid_amount_response, [])) /\
  (forall call,
     In call (snd (BuyHandler ParseFloat oc c)) \/
     In call (snd (SellHandler ParseFloat oc c)) ->
     (call_amount call =? zero) = false).
Proof.
  unfold BuyHandler, SellHandler, QueryFloat.
  destruct (ParseFloat (Query c "amount")) as [v [msg|]]; simpl.
  - split; [split; reflexivity|]. intros call [[] | []].
  - destruct (v =? zero) eqn:E.
    + split; [split; reflexivity|]. intros call [[] | []].
    + split.
      * intros [H | H]; [now elim H | discriminate].
      * destruct (Buy (orderService oc) v (Query c "symbol")) as [[ub wb] eb].
        destruct (Sell (orderService oc) v (Query c "symbol")) as [[us ws] es].
        simpl. intros call [[<- | []] | [<- | []]]; exact E.
Qed.

(** The requests [?symbol=BTC] (no amount), [?amount=junk] and [?amount=0]. *)
Lemma handlers_reject_zero_amount_witness :
  let oc := service [quoting "coinbase" f9900 f9900] in
  (BuyHandler strconv.ParseFloat_dec oc (request [("symbol", "BTC")]%string)
     = (invalid_amount_response, []) /\
   SellHandler strconv.ParseFloat_dec oc (request [("symbol", "BTC")]%string)
     = (invalid_amount_response, [])) /\
  (BuyHandler strconv.ParseFloat_dec oc (request [("amount", "0"); ("symbol", "BTC")]%string)
     = (invalid_amount_response, []) /\
   SellHandler strconv.ParseFloat_dec oc (request [("amount", "0"); ("symbol", "BTC")]%string)
     = (invalid_amount_response, [])) /\
  (call_amount (CallBuy one "BTC") =? zero) = false.
Proof.
  intros oc. split; [|split].
  - apply (proj1 (handlers_reject_zero_amount strconv.ParseFloat_dec oc
                    (request [("symbol", "BTC")]%string))).
    left. discriminate.
  - apply (proj1 (handlers_reject_zero_amount strconv.ParseFloat_dec oc
                    (request [("amount", "0"); ("symbol", "BTC")]%string))).
    right. reflexivity.
  - apply (proj2 (handlers_reject_zero_amount strconv.ParseFloat_dec oc
                    (request [("amount", "1"); ("symbol", "BTC")]%string))).
    left. left. reflexivity.
Defined.

(** ** C8: scenario C *)

(** C8.  Selling 0.5 with coinbase bidding 9900 and kraken bidding 10000
    returns the amount 5000 and the winners ["kraken"]. *)
Theorem scenario_C_sell_fractional :
  Sell (NewOrderService [quoting "coinbase" f9900 f9900;
                         quoting "kraken" f10000 f10000]) half "BTC"
    = (f5000, Some ["kraken"%string], None).
Proof. reflexivity. Qed.

(** ** C9: the amount check of the handlers *)

Module HandlerFacts.

Lemma Query_missing c key : Peek (QueryArgs c) key = None -> Query c key = ""%string.
Proof. unfold Query. now intros ->. Qed.

(** Whatever is encoded, the answer of [JSON_order] is a 200 or a 500. *)
Lemma JSON_order_status coin amount usd ws :
  Status (JSON_order coin amount usd ws) <> StatusBadRequest.
Proof.
  unfold JSON_order, json_failure.
  destruct (unsupported_value amount); [discriminate|].
  destruct (unsupported_value usd); discriminate.
Qed.

End HandlerFacts.

(** C9.  [strconv.ParseFloat] reports an error on the empty string.  Then a
    handler answers with status 400 and the body "invalid amount", calling
    nothing, when the amount parameter is missing, unparseable or parses to a
    value [==] 0.  In every other case it calls the order service once, with
    the parsed amount as it is and with whatever the symbol parameter holds;
    its status is not 400, and its answer is made of what the order service
    returns for that amount and that symbol: the error text with status 500,
    or the encoding of the symbol, the amount, the returned amount and the
    returned winners. *)
Theorem handlers_validate_only_amount ParseFloat oc c :
  snd (ParseFloat "") <> None ->
  (invalid_amount ParseFloat c ->
   BuyHandler ParseFloat oc c = (invalid_amount_response, []) /\
   SellHandler ParseFloat oc c = (invalid_amount_response, [])) /\
  (~ invalid_amount ParseFloat c ->
   let amount := fst (ParseFloat (Query c "amount")) in
   let symbol := Query c "symbol" in
   snd (BuyHandler ParseFloat oc c) = [CallBuy amount symbol] /\
   snd (SellHandler ParseFloat oc c) = [CallSell amount symbol] /\
   Status (fst (BuyHandler ParseFloat oc c)) <> StatusBadRequest /\
   Status (fst (SellHandler ParseFloat oc c)) <> StatusBadRequest /\
   (forall usd ws msg,
      Buy (orderService oc) amount symbol = (usd, ws, Some msg) ->
      fst (BuyHandler ParseFloat oc c)
      = {| Status := StatusInternalServerError; JSON := ErrorBody msg |}) /\
   (forall usd ws,
      Buy (orderService oc) amount symbol = (usd, ws, None) ->
      fst (BuyHandler ParseFloat oc c) = JSON_order symbol amount usd ws) /\
   (forall usd ws msg,
      Sell (orderService oc) amount symbol = (usd, ws, Some msg) ->
      fst (SellHandler ParseFloat oc c)
      = {| Status := StatusInternalServerError; JSON := ErrorBody msg |}) /\
   (forall usd ws,
      Sell (orderService oc) amount symbol = (usd, ws, None) ->
      fst (SellHandler ParseFloat oc c) = JSON_order symbol amount usd ws)).
Proof.
  intros Hempty. unfold invalid_amount. split.
  - intros H.
    assert (H' : snd (ParseFloat (Query c "amount")) <> None \/
                 (fst (ParseFloat (Query c "amount")) =? zero) = true).
    { destruct H as [H | [H | H]]; auto.
      left. now rewrite (HandlerFacts.Query_missing _ _ H). }
    clear H. unfold BuyHandler, SellHandler, QueryFloat.
    destruct (ParseFloat (Query c "amount")) as [v [msg|]]; simpl in *.
    + split; reflexivity.
    + destruct H' as [H | ->]; [now elim H | split; reflexivity].
  - intros H. unfold BuyHandler, SellHandler, QueryFloat.
    destruct (ParseFloat (Query c "amount")) as [v [msg|]]; cbn [fst snd] in *.
    + elim H. right. left. discriminate.
    + destruct (v =? zero) eqn:E; [elim H; auto|].
      destruct (Buy (orderService oc) v (Query c "symbol")) as [[ub wb] eb].
      destruct (Sell (orderService oc) v (Query c "symbol")) as [[us ws] es].
      cbn [fst snd]. repeat apply conj; try reflexivity.
      * destruct eb; [discriminate|]. apply HandlerFacts.JSON_order_status.
      * destruct es; [discriminate|]. apply HandlerFacts.JSON_order_status.
      * now intros usd w msg [= <- <- ->].
      * now intros usd w [= <- <- ->].
      * now intros usd w msg [= <- <- ->].
      * now intros usd w [= <- <- ->].
Qed.

(** The requests [?symbol=BTC] (amount missing) and [?amount=-1] (negative
    amount, symbol missing).  The second is answered from what [Buy] and
    [Sell] return for the amount -1 and the empty symbol. *)
Lemma handlers_validate_only_amount_witness :
  let oc := service [quoting "coinbase" f9900 f9900; quoting "kraken" f10000 f10000] in
  let missing := request [("symbol", "BTC")]%string in
  let negative := request [("amount", "-1")]%string in
  snd (strconv.ParseFloat_dec "") <> None /\
  invalid_amount strconv.ParseFloat_dec missing /\
  ~ invalid_amount strconv.ParseFloat_dec negative /\
  (BuyHandler strconv.ParseFloat_dec oc missing = (invalid_amount_response, []) /\
   SellHandler strconv.ParseFloat_dec oc missing = (invalid_amount_response, [])) /\
  (snd (BuyHandler strconv.ParseFloat_dec oc negative) = [CallBuy minus_one ""] /\
   snd (SellHandler strconv.ParseFloat_dec oc negative) = [CallSell minus_one ""] /\
   Status (fst (BuyHandler strconv.ParseFloat_dec oc negative)) <> StatusBadRequest /\
   Status (fst (SellHandler strconv.ParseFloat_dec oc negative)) <> StatusBadRequest) /\
  fst (BuyHandler strconv.ParseFloat_dec oc negative)
    = JSON_order "" minus_one (minus_one * f9900) (Some ["coinbase"%string]) /\
  fst (SellHandler strconv.ParseFloat_dec oc negative)
    = JSON_order "" minus_one (minus_one * f10000) (Some ["kraken"%string]).
Proof.
  intros oc missing negative.
  assert (Hempty : snd (strconv.ParseFloat_dec "") <> None) by discriminate.
  assert (Hm : invalid_amount strconv.ParseFloat_dec missing) by (left; reflexivity).
  assert (Hn : ~ invalid_amount strconv.ParseFloat_dec negative).
  { intros [H | [H | H]]; [discriminate H | now apply H | discriminate H]. }
  pose proof (proj2 (handlers_validate_only_amount
                       strconv.ParseFloat_dec oc negative Hempty) Hn)
    as (Hcb & Hcs & Hsb & Hss & _ & Hb & _ & Hs).
  repeat apply conj; try assumption.
  - apply (proj1 (handlers_validate_only_amount strconv.ParseFloat_dec oc missing Hempty) Hm).
  - apply (proj1 (handlers_validate_only_amount strconv.ParseFloat_dec oc missing Hempty) Hm).
  - apply Hb. reflexivity.
  - apply Hs. reflexivity.
Defined.

(** ** C10: a bid of 0 in [Sell] *)

Module SellFacts.

(** Adapters that fail or bid a zero leave [bestPrice] at its initial 0. *)
Lemma Sell_range_zero_bids symbol exs : forall ws,
  (forall e, In e exs ->
     succeeded symbol e = false \/ (bid symbol e =? zero) = true) ->
  fst (fold_left (Sell_iter symbol) exs (zero, ws)) = zero.
Proof.
  induction exs as [|e exs IH]; intros ws H; cbn [fold_left]; [reflexivity|].
  assert (He : exists ws', Sell_iter symbol (zero, ws) e = (zero, ws')).
  { pose proof (H e (or_introl Logic.eq_refl)) as Hf.
    unfold Sell_iter, succeeded, bid in *.
    destruct (GetPrices e symbol) as [[a b] [msg|]]; simpl in *; [eauto|].
    destruct Hf as [Hf | Hf]; [discriminate|].
    destruct (b >? zero) eqn:Hgt.
    - rewrite (gt_not_eq _ _ Hgt) in Hf. discriminate.
    - rewrite Hf. eauto. }
  destruct He as [ws' ->]. apply IH. intros x Hx. apply H. now right.
Qed.

End SellFacts.

(** C10.  If every adapter fails or reports a bid [==] 0, [Sell] returns the
    error even when some adapter succeeded; and whenever [Sell] returns
    without error, the winning price of the returned winners is above 0 and
    does not compare equal to 0. *)
Theorem Sell_zero_bid_never_wins o amount symbol :
  ((forall e, In e (exchanges o) ->
      succeeded symbol e = false \/ (bid symbol e =? zero) = true) ->
   Sell o amount symbol
     = (zero, None, Some ("failed to find best price for " ++ symbol)%string)) /\
  (forall usd ws,
     Sell o amount symbol = (usd, ws, None) ->
     exists p w,
       ws = Some w /\ Sell_range symbol (exchanges o) = (p, w) /\ usd = amount * p /\
       (p >? zero) = true /\ (p =? zero) = false).
Proof.
  split.
  - intros H. unfold Sell, Sell_range.
    pose proof (SellFacts.Sell_range_zero_bids symbol (exchanges o) [] H) as Hz.
    destruct (fold_left (Sell_iter symbol) (exchanges o) (zero, [])) as [p w].
    simpl in Hz. subst p. reflexivity.
  - intros usd ws H.
    destruct (Sell_ok _ _ _ _ _ H) as (p & w & Hr & -> & Hu & Hb & _).
    exists p, w. repeat split; try assumption. now apply gt_not_eq.
Qed.

(** Kraken succeeds with the bid 0 while coinbase is down; scenario D for a
    successful return. *)
Lemma Sell_zero_bid_never_wins_witness :
  let o := NewOrderService [down "coinbase"; quoting "kraken" f9900 zero] in
  let od := NewOrderService [down "coinbase"; quoting "kraken" f9900 f9900] in
  (exists e, In e (exchanges o) /\ succeeded "BTC" e = true) /\
  Sell o one "BTC" = (zero, None, Some "failed to find best price for BTC"%string) /\
  (exists p w,
     Some ["kraken"%string] = Some w /\ Sell_range "BTC" (exchanges od) = (p, w) /\
     f9900 = one * p /\ (p >? zero) = true /\ (p =? zero) = false).
Proof.
  intros o od. split; [|split].
  - eexists. split; [right; left; reflexivity | reflexivity].
  - apply (proj1 (Sell_zero_bid_never_wins o one "BTC")).
    intros e [<- | [<- | []]]; [left | right]; reflexivity.
  - apply (proj2 (Sell_zero_bid_never_wins od one "BTC") f9900 (Some ["kraken"%string])).
    reflexivity.
Defined.

(** ** The cases of the repository's test file

    The table-driven tests of [BuyHandler] and [SellHandler], run on the
    model. *)

Module Tests.

Import strconv.

(** Every constant used in the examples is a binary64 datum. *)
Example constants_are_float64 :
  forallb is_float64
    [zero; neg_zero; lit_1e18; one; half; minus_one; f9900; f10000; f5000;
     f4950; f2e18] = true.
Proof. reflexivity. Qed.

Example buy_best_price_on_coinbase :
  fst (BuyHandler ParseFloat_dec
         (service [quoting "coinbase" f9900 f9900; quoting "kraken" f10000 f10000])
         (request [("amount", "1"); ("symbol", "BTC")]%string))
  = {| Status := StatusOK;
       JSON := OrderBody "BTC" one f9900 (Some ["coinbase"%string]) |}.
Proof. reflexivity. Qed.

Example buy_same_price_on_both :
  fst (BuyHandler ParseFloat_dec
         (service [quoting "coinbase" f10000 f10000; quoting "kraken" f10000 f10000])
         (request [("amount", "1"); ("symbol", "BTC")]%string))
  = {| Status := StatusOK;
       JSON := OrderBody "BTC" one f10000 (Some ["coinbase"; "kraken"]%string) |}.
Proof. reflexivity. Qed.

Example buy_fractional_amount :
  fst (BuyHandler ParseFloat_dec
         (service [quoting "coinbase" f10000 f10000; quoting "kraken" f9900 f9900])
         (request [("amount", "0.5"); ("symbol", "BTC")]%string))
  = {| Status := StatusOK;
       JSON := OrderBody "BTC" half f4950 (Some ["kraken"%string]) |}.
Proof. reflexivity. Qed.

Example buy_invalid_amount :
  fst (BuyHandler ParseFloat_dec
         (service [quoting "coinbase" f10000 f10000; quoting "kraken" f9900 f9900])
         (request [("amount", "junk"); ("symbol", "BTC")]%string))
  = {| Status := StatusBadRequest; JSON := ErrorBody "invalid amount" |}.
Proof. reflexivity. Qed.

Example buy_missing_amount :
  fst (BuyHandler ParseFloat_dec
         (service [quoting "coinbase" f10000 f10000; quoting "kraken" f9900 f9900])
         (request [("amount", ""); ("symbol", "BTC")]%string))
  = {| Status := StatusBadRequest; JSON := ErrorBody "invalid amount" |}.
Proof. reflexivity. Qed.

Example sell_one_source_down :
  fst (SellHandler ParseFloat_dec
         (service [down "coinbase"; quoting "kraken" f9900 f9900])
         (request [("amount", "1"); ("symbol", "BTC")]%string))
  = {| Status := StatusOK;
       JSON := OrderBody "BTC" one f9900 (Some ["kraken"%string]) |}.
Proof. reflexivity. Qed.

Example sell_both_sources_down :
  fst (SellHandler ParseFloat_dec
         (service [down "coinbase"; down "kraken"])
         (request [("amount", "1"); ("symbol", "BTC")]%string))
  = {| Status := StatusInternalServerError;
       JSON := ErrorBody "failed to find best price for BTC" |}.
Proof. reflexivity. Qed.

(** A product that overflows cannot be encoded: the handler's answer is the
    500 of fiber's error handler, with the encoder's error as plain text. *)
Example buy_overflowing_product :
  is_float64 neg_max_float = true /\
  BuyHandler ParseFloat_dec
    (service [quoting "coinbase" neg_max_float f9900])
    (request [("amount", "2"); ("symbol", "BTC")]%string)
  = ({| Status := StatusInternalServerError;
        JSON := TextBody "json: unsupported value: -Inf" |},
     [CallBuy (of_Z 2) "BTC"]).
Proof. split; reflexivity. Qed.

(** The two zeros tie in [Buy]: both sources win and the winning price is
    the zero that was met first. *)
Example buy_signed_zero_tie :
  let pos := quoting "coinbase" zero zero in
  let neg := quoting "kraken" neg_zero neg_zero in
  Buy_range "BTC" [pos; neg] = (zero, ["coinbase"; "kraken"]%string) /\
  Buy_range "BTC" [neg; pos] = (neg_zero, ["kraken"; "coinbase"]%string).
Proof. split; reflexivity. Qed.

End Tests.

(** * Further properties of the adapters *)

Module BookFacts.

Lemma side_missing_first_field b : side_missing (first_field b) = side_missing b.
Proof. destruct b as [|[|v l] b]; reflexivity. Qed.

Lemma top_of_book_first_field b :
  side_missing b = false -> top_of_book (first_field b) = top_of_book b.
Proof. destruct b as [|[|v l] b]; try discriminate; reflexivity. Qed.

Lemma last_default {A : Type} (l : list A) x d d' : last (x :: l) d = last (x :: l) d'.
Proof.
  revert x. induction l as [|y l IH]; intros x; [reflexivity|].
  change (last (y :: l) d = last (y :: l) d'). apply IH.
Qed.

Lemma last_cons {A : Type} (l : list A) x d : last (x :: l) d = last l x.
Proof.
  destruct l as [|y l]; [reflexivity|].
  change (last (y :: l) d = last (y :: l) x). apply last_default.
Qed.

Section Prices.

Variable ParseFloat : string -> float64 * error.

Local Abbreviation price := (side_price ParseFloat).
Local Abbreviation quote := (entry_quote ParseFloat).

(** The three ways reading one side can go. *)
Lemma side_price_some b v :
  price b = Some v <->
  side_missing b = false /\
  exists s, top_of_book b = AString s /\ ParseFloat s = (v, None).
Proof.
  unfold side_price. split.
  - destruct (side_missing b); [discriminate|].
    destruct (top_of_book b) as [s| | | | |]; try discriminate.
    destruct (ParseFloat s) as [w [msg|]] eqn:E; [discriminate|].
    intros [= ->]. eauto.
  - intros (-> & s & -> & ->). reflexivity.
Qed.

(** One step of the Kraken loop on an entry that yields a quote. *)
Lemma Kraken_range_quote k r rest a0 b0 a b :
  quote r = Some (a, b) ->
  Kraken_range ParseFloat ((k, r) :: rest) a0 b0 = Kraken_range ParseFloat rest a b.
Proof.
  unfold entry_quote.
  destruct (price (Bids r)) as [vb|] eqn:Eb; [|discriminate].
  destruct (price (Asks r)) as [va|] eqn:Ea; [|discriminate].
  intros [= <- <-].
  apply side_price_some in Eb. destruct Eb as (Mb & sb & Tb & Pb).
  apply side_price_some in Ea. destruct Ea as (Ma & sa & Ta & Pa).
  cbn [Kraken_range]. rewrite Mb, Ma, Tb, Ta. cbn [assert_string]. now rewrite Pb, Pa.
Qed.

(** An entry that lets the loop go on yields a quote. *)
Lemma Kraken_range_continues k r rest a0 b0 :
  quote r = None ->
  Kraken_range ParseFloat ((k, r) :: rest) a0 b0
    = Kraken_range ParseFloat [(k, r)] a0 b0 /\
  forall a b, Kraken_range ParseFloat [(k, r)] a0 b0 <> Returns (a, b, None).
Proof.
  unfold entry_quote, side_price. cbn [Kraken_range].
  destruct (side_missing (Bids r)); [split; [reflexivity | discriminate]|].
  destruct (side_missing (Asks r)).
  { split; [reflexivity | discriminate]. }
  destruct (top_of_book (Bids r)) as [sb| | | | |]; cbn [assert_string];
    try (split; [reflexivity | discriminate]).
  destruct (ParseFloat sb) as [vb [eb|]]; [split; [reflexivity | discriminate]|].
  destruct (top_of_book (Asks r)) as [sa| | | | |]; cbn [assert_string];
    try (split; [reflexivity | discriminate]).
  destruct (ParseFloat sa) as [va [ea|]]; [split; [reflexivity | discriminate]|].
  discriminate.
Qed.

Lemma Kraken_range_success_iff entries : forall a0 b0 a b,
  Kraken_range ParseFloat entries a0 b0 = Returns (a, b, None) <->
  exists qs,
    map (fun kr => quote (snd kr)) entries = map Some qs /\
    last qs (a0, b0) = (a, b).
Proof.
  induction entries as [|[k r] rest IH]; intros a0 b0 a b.
  - simpl. split.
    + intros [= <- <-]. exists []. split; reflexivity.
    + intros (qs & Hq & Hl). destruct qs; [|discriminate].
      simpl in Hl. now inversion Hl.
  - destruct (quote r) as [[qa qb]|] eqn:Q.
    + rewrite (Kraken_range_quote k r rest a0 b0 qa qb Q), IH. split.
      * intros (qs & Hq & Hl). exists ((qa, qb) :: qs). split.
        -- cbn [map snd]. now rewrite Q, Hq.
        -- now rewrite last_cons.
      * intros (qs & Hq & Hl). destruct qs as [|q qs]; [discriminate|].
        cbn [map snd] in Hq. rewrite Q in Hq. injection Hq as <- Hq.
        exists qs. split; [assumption|]. now rewrite last_cons in Hl.
    + destruct (Kraken_range_continues k r rest a0 b0 Q) as [-> Hn]. split.
      * intros H. now elim (Hn a b).
      * intros (qs & Hq & _). destruct qs; simpl in Hq; [discriminate|].
        rewrite Q in Hq. discriminate.
Qed.

Lemma Kraken_range_failure entries : forall a0 b0 a b msg,
  Kraken_range ParseFloat entries a0 b0 = Returns (a, b, Some msg) ->
  a = zero /\ b = zero.
Proof.
  induction entries as [|[k r] rest IH]; intros a0 b0 a b msg; cbn [Kraken_range].
  - discriminate.
  - destruct (side_missing (Bids r)); [intros [= <- <- _]; auto|].
    destruct (side_missing (Asks r)); [intros [= <- <- _]; auto|].
    destruct (top_of_book (Bids r)) as [sb| | | | |]; cbn [assert_string];
      try discriminate.
    destruct (ParseFloat sb) as [vb [eb|]]; [intros [= <- <- _]; auto|].
    destruct (top_of_book (Asks r)) as [sa| | | | |]; cbn [assert_string];
      try discriminate.
    destruct (ParseFloat sa) as [va [ea|]]; [intros [= <- <- _]; auto|].
    apply IH.
Qed.

Lemma Kraken_range_first_fields entries : forall a0 b0,
  Kraken_range ParseFloat
    (map (fun kr => (fst kr, first_fields_block (snd kr))) entries) a0 b0
  = Kraken_range ParseFloat entries a0 b0.
Proof.
  induction entries as [|[k r] rest IH]; intros a0 b0; [reflexivity|].
  cbn [map fst snd Kraken_range first_fields_block Bids Asks].
  rewrite !side_missing_first_field.
  destruct (side_missing (Bids r)) eqn:Mb; [reflexivity|].
  destruct (side_missing (Asks r)) eqn:Ma; [reflexivity|].
  rewrite (top_of_book_first_field _ Mb), (top_of_book_first_field _ Ma).
  destruct (assert_string (top_of_book (Bids r))) as [sb|]; [|reflexivity].
  destruct (ParseFloat sb) as [vb [eb|]]; [reflexivity|].
  destruct (assert_string (top_of_book (Asks r))) as [sa|]; [|reflexivity].
  destruct (ParseFloat sa) as [va [ea|]]; [reflexivity|].
  apply IH.
Qed.

End Prices.

End BookFacts.

Module PanicFacts.

Section Prices.

Variable ParseFloat : string -> float64 * error.

Ltac split_cases :=
  repeat first
    [ progress cbn [assert_string is_string negb andb orb]
    | match goal with
      | |- context [side_missing ?b] => destruct (side_missing b)
      | |- context [top_of_book ?b] => destruct (top_of_book b) as [?s| | | | |]
      | |- context [ParseFloat ?s] => destruct (ParseFloat s) as [? [?|]]
      end ].

Ltac panic_iff :=
  simpl; split;
  [ intros [why H]; first [discriminate H | reflexivity]
  | intros H; first [discriminate H | eexists; reflexivity] ].

(** A single entry makes the loop panic exactly when [entry_panics] holds. *)
Lemma Kraken_entry_panics k r a0 b0 :
  (exists why, Kraken_range ParseFloat [(k, r)] a0 b0 = Panics why) <->
  entry_panics ParseFloat (Bids r) (Asks r) = true.
Proof.
  unfold entry_panics, side_price. cbn [Kraken_range].
  split_cases; panic_iff.
Qed.

Lemma quote_excludes_panic r q :
  entry_quote ParseFloat r = Some q ->
  entry_panics ParseFloat (Bids r) (Asks r) = false.
Proof.
  unfold entry_quote, entry_panics, side_price.
  split_cases; simpl; try discriminate; reflexivity.
Qed.

Lemma Kraken_range_panics_iff entries : forall a0 b0,
  (exists why, Kraken_range ParseFloat entries a0 b0 = Panics why) <->
  exists pre k blk post,
    entries = (pre ++ (k, blk) :: post)%list /\
    Forall (fun kr => entry_quote ParseFloat (snd kr) <> None) pre /\
    entry_panics ParseFloat (Bids blk) (Asks blk) = true.
Proof.
  induction entries as [|[k r] rest IH]; intros a0 b0.
  - split.
    + intros [why H]. discriminate H.
    + intros (pre & k & blk & post & H & _). destruct pre; discriminate H.
  - destruct (entry_quote ParseFloat r) as [[qa qb]|] eqn:Q.
    + rewrite (BookFacts.Kraken_range_quote ParseFloat k r rest a0 b0 qa qb Q), IH.
      split.
      * intros (pre & k' & blk & post & -> & Hpre & Hp).
        exists ((k, r) :: pre), k', blk, post. split; [reflexivity|].
        split; [|assumption]. constructor; [|assumption]. simpl. congruence.
      * intros (pre & k' & blk & post & H & Hpre & Hp).
        destruct pre as [|x pre]; simpl in H.
        -- injection H as <- <- <-.
           rewrite (quote_excludes_panic _ _ Q) in Hp. discriminate.
        -- injection H as <- ->. inversion Hpre; subst. eauto 8.
    + destruct (BookFacts.Kraken_range_continues ParseFloat k r rest a0 b0 Q) as [-> _].
      rewrite Kraken_entry_panics. split.
      * intros Hp. exists [], k, r, rest. auto.
      * intros (pre & k' & blk & post & H & Hpre & Hp).
        destruct pre as [|x pre]; simpl in H.
        -- now injection H as <- <- <-.
        -- injection H as <- ->. inversion Hpre; subst. simpl in *. congruence.
Qed.

End Prices.

End PanicFacts.

(** ** What the adapters return *)

(** The Coinbase adapter returns a pair of prices without error exactly when
    the response was decoded and both sides of its book yield a price: the
    side is present, its first field is a string, and the string parses. *)
Theorem Coinbase_success_iff ParseFloat resp a b :
  CoinbaseExchange_GetPrices ParseFloat resp = Returns (a, b, None) <->
  exists r,
    resp = Decoded r /\
    side_price ParseFloat (cb_Bids r) = Some b /\
    side_price ParseFloat (cb_Asks r) = Some a.
Proof.
  split.
  - intros H. destruct (ExchangeFacts.Coinbase_success _ _ _ _ H)
      as (r & sa & sb & -> & Mb & Ma & Tb & Pb & Ta & Pa).
    exists r. split; [reflexivity|].
    split; apply BookFacts.side_price_some; eauto.
  - intros (r & -> & Hb & Ha).
    apply BookFacts.side_price_some in Hb. destruct Hb as (Mb & sb & Tb & Pb).
    apply BookFacts.side_price_some in Ha. destruct Ha as (Ma & sa & Ta & Pa).
    simpl. rewrite Mb, Ma, Tb, Ta. simpl. now rewrite Pb, Pa.
Qed.

(** A book with the top bid "9900" and the top ask "10000". *)
Lemma Coinbase_success_iff_witness :
  let r := {| cb_Bids := level "9900"; cb_Asks := level "10000" |} in
  side_price strconv.ParseFloat_dec (cb_Bids r) = Some f9900 /\
  side_price strconv.ParseFloat_dec (cb_Asks r) = Some f10000 /\
  CoinbaseExchange_GetPrices strconv.ParseFloat_dec (Decoded r)
    = Returns (f10000, f9900, None).
Proof.
  intros r.
  assert (Hb : side_price strconv.ParseFloat_dec (cb_Bids r) = Some f9900)
    by reflexivity.
  assert (Ha : side_price strconv.ParseFloat_dec (cb_Asks r) = Some f10000)
    by reflexivity.
  split; [exact Hb|]. split; [exact Ha|].
  apply (proj2 (Coinbase_success_iff strconv.ParseFloat_dec (Decoded r) f10000 f9900)).
  exists r. auto.
Defined.

(** The Kraken adapter returns a pair of prices without error exactly when the
    response was decoded, its error list is empty and every entry of the
    result map yields a quote; the pair returned is the quote of the entry
    visited last, and (0, 0) when the map has no entry. *)
Theorem Kraken_success_iff ParseFloat resp a b :
  KrakenExchange_GetPrices ParseFloat resp = Returns (a, b, None) <->
  exists r qs,
    resp = Decoded r /\ Error r = [] /\
    map (fun kr => entry_quote ParseFloat (snd kr)) (Result r) = map Some qs /\
    last qs (zero, zero) = (a, b).
Proof.
  split.
  - destruct resp as [err | err | err | r]; simpl; try discriminate.
    destruct (Error r) as [|m ms] eqn:E; simpl; [|discriminate].
    intros H. apply BookFacts.Kraken_range_success_iff in H.
    destruct H as (qs & Hq & Hl). exists r, qs. auto.
  - intros (r & qs & -> & E & Hq & Hl). simpl. rewrite E. simpl.
    apply BookFacts.Kraken_range_success_iff. eauto.
Qed.

(** The answer for BTC: one entry under the key XXBTZUSD. *)
Lemma Kraken_success_iff_witness :
  let blk := {| Asks := level "10000"; Bids := level "9900" |} in
  let r := {| Error := []; Result := [("XXBTZUSD"%string, blk)] |} in
  map (fun kr => entry_quote strconv.ParseFloat_dec (snd kr)) (Result r)
    = map Some [(f10000, f9900)] /\
  KrakenExchange_GetPrices strconv.ParseFloat_dec (Decoded r)
    = Returns (f10000, f9900, None).
Proof.
  intros blk r.
  assert (Hq : map (fun kr => entry_quote strconv.ParseFloat_dec (snd kr)) (Result r)
               = map Some [(f10000, f9900)]) by reflexivity.
  split; [exact Hq|].
  apply (proj2 (Kraken_success_iff strconv.ParseFloat_dec (Decoded r) f10000 f9900)).
  exists r, [(f10000, f9900)]. repeat split; assumption.
Defined.

(** Whenever an adapter returns an error, the two prices it returns with it
    are both 0: no price read before the failure leaks out. *)
Theorem adapter_failure_carries_zero_prices ParseFloat a b msg :
  (forall resp,
     CoinbaseExchange_GetPrices ParseFloat resp = Returns (a, b, Some msg) ->
     a = zero /\ b = zero) /\
  (forall resp,
     KrakenExchange_GetPrices ParseFloat resp = Returns (a, b, Some msg) ->
     a = zero /\ b = zero).
Proof.
  split; intros resp.
  - destruct resp as [err | err | err | r]; simpl;
      try (intros [= <- <- _]; auto; fail).
    destruct (side_missing (cb_Bids r)); [intros [= <- <- _]; auto|].
    destruct (side_missing (cb_Asks r)); [intros [= <- <- _]; auto|].
    destruct (top_of_book (cb_Bids r)) as [sb| | | | |]; simpl; try discriminate.
    destruct (ParseFloat sb) as [vb [eb|]]; [intros [= <- <- _]; auto|].
    destruct (top_of_book (cb_Asks r)) as [sa| | | | |]; simpl; try discriminate.
    destruct (ParseFloat sa) as [va [ea|]]; [intros [= <- <- _]; auto | discriminate].
  - destruct resp as [err | err | err | r]; simpl;
      try (intros [= <- <- _]; auto; fail).
    destruct (negb (len (Error r) =? 0)%Z); [intros [= <- <- _]; auto|].
    apply BookFacts.Kraken_range_failure.
Qed.

(** The ask "junk" does not parse: the bid 9900 that was already parsed is
    not returned. *)
Lemma adapter_failure_carries_zero_prices_witness :
  let msg := "failed to parse ask price string from coinbase response: invalid syntax"%string in
  let msg' := "failed to parse ask price string from kraken response: invalid syntax"%string in
  let cb := Decoded {| cb_Bids := level "9900"; cb_Asks := level "junk" |} in
  let kr := Decoded {| Error := [];
                       Result := [("XXBTZUSD"%string,
                                   {| Asks := level "junk"; Bids := level "9900" |})] |} in
  CoinbaseExchange_GetPrices strconv.ParseFloat_dec cb = Returns (zero, zero, Some msg) /\
  KrakenExchange_GetPrices strconv.ParseFloat_dec kr = Returns (zero, zero, Some msg') /\
  (zero = zero /\ zero = zero) /\ (zero = zero /\ zero = zero).
Proof.
  intros msg msg' cb kr.
  assert (Hc : CoinbaseExchange_GetPrices strconv.ParseFloat_dec cb
               = Returns (zero, zero, Some msg)) by reflexivity.
  assert (Hk : KrakenExchange_GetPrices strconv.ParseFloat_dec kr
               = Returns (zero, zero, Some msg')) by reflexivity.
  split; [exact Hc|]. split; [exact Hk|]. split.
  - exact (proj1 (adapter_failure_carries_zero_prices
                    strconv.ParseFloat_dec zero zero msg) cb Hc).
  - exact (proj2 (adapter_failure_carries_zero_prices
                    strconv.ParseFloat_dec zero zero msg') kr Hk).
Defined.

(** Both adapters read nothing but the first field of the first level of each
    side of a book: cutting every side down to that field (or to nothing, when
    the side has no such field) changes no result, be it a pair of prices, an
    error or a panic. *)
Theorem adapters_read_first_field_only ParseFloat :
  (forall r,
     CoinbaseExchange_GetPrices ParseFloat (Decoded (first_fields_coinbase r))
     = CoinbaseExchange_GetPrices ParseFloat (Decoded r)) /\
  (forall r,
     KrakenExchange_GetPrices ParseFloat (Decoded (first_fields_kraken r))
     = KrakenExchange_GetPrices ParseFloat (Decoded r)).
Proof.
  split; intros r.
  - cbn [CoinbaseExchange_GetPrices first_fields_coinbase cb_Bids cb_Asks].
    rewrite !BookFacts.side_missing_first_field.
    destruct (side_missing (cb_Bids r)) eqn:Mb; [reflexivity|].
    destruct (side_missing (cb_Asks r)) eqn:Ma; [reflexivity|].
    now rewrite (BookFacts.top_of_book_first_field _ Mb),
                (BookFacts.top_of_book_first_field _ Ma).
  - cbn [KrakenExchange_GetPrices first_fields_kraken Error Result].
    destruct (negb (len (Error r) =? 0)%Z); [reflexivity|].
    apply BookFacts.Kraken_range_first_fields.
Qed.

(** ** When the adapters panic *)

(** The Coinbase adapter panics exactly when the response was decoded, both
    sides of the book are present, and either the bid field is not a string or
    the bid parses and the ask field is not a string.  With a bid that does not
    parse it returns the parse error and never looks at the ask field. *)
Theorem Coinbase_panics_iff ParseFloat resp :
  (exists why, CoinbaseExchange_GetPrices ParseFloat resp = Panics why) <->
  exists r, resp = Decoded r /\
            entry_panics ParseFloat (cb_Bids r) (cb_Asks r) = true.
Proof.
  split.
  - destruct resp as [err | err | err | r]; simpl;
      try (intros [why H]; discriminate H).
    intros H. exists r. split; [reflexivity|]. revert H.
    unfold entry_panics, side_price.
    destruct (side_missing (cb_Bids r)); [intros [why H]; discriminate H|].
    destruct (side_missing (cb_Asks r)); [intros [why H]; discriminate H|].
    destruct (top_of_book (cb_Bids r)) as [sb| | | | |]; simpl; try reflexivity.
    destruct (ParseFloat sb) as [vb [eb|]]; [intros [why H]; discriminate H|].
    destruct (top_of_book (cb_Asks r)) as [sa| | | | |]; simpl; try reflexivity.
    destruct (ParseFloat sa) as [va [ea|]]; intros [why H]; discriminate H.
  - intros (r & -> & H). revert H. simpl. unfold entry_panics, side_price.
    destruct (side_missing (cb_Bids r)); [discriminate|].
    destruct (side_missing (cb_Asks r)); [discriminate|].
    destruct (top_of_book (cb_Bids r)) as [sb| | | | |]; simpl; eauto.
    destruct (ParseFloat sb) as [vb [eb|]]; [discriminate|].
    destruct (top_of_book (cb_Asks r)) as [sa| | | | |]; simpl; eauto.
    discriminate.
Qed.

(** A book whose bid price is the JSON number 1 instead of a string. *)
Lemma Coinbase_panics_iff_witness :
  let r := {| cb_Bids := [[ANumber one; AString "1.5"]]; cb_Asks := level "10000" |} in
  entry_panics strconv.ParseFloat_dec (cb_Bids r) (cb_Asks r) = true /\
  exists why, CoinbaseExchange_GetPrices strconv.ParseFloat_dec (Decoded r) = Panics why.
Proof.
  intros r.
  assert (H : entry_panics strconv.ParseFloat_dec (cb_Bids r) (cb_Asks r) = true)
    by reflexivity.
  split; [exact H|].
  apply (proj2 (Coinbase_panics_iff strconv.ParseFloat_dec (Decoded r))).
  exists r. auto.
Defined.

(** With an empty error list, the Kraken adapter panics exactly when the loop
    over the result map reaches, after entries that all yield a quote, an
    entry with both sides present whose bid field is not a string, or whose
    bid parses and whose ask field is not a string. *)
Theorem Kraken_panics_iff ParseFloat r :
  Error r = [] ->
  ((exists why, KrakenExchange_GetPrices ParseFloat (Decoded r) = Panics why) <->
   exists pre k blk post,
     Result r = (pre ++ (k, blk) :: post)%list /\
     Forall (fun kr => entry_quote ParseFloat (snd kr) <> None) pre /\
     entry_panics ParseFloat (Bids blk) (Asks blk) = true).
Proof.
  intros E. simpl. rewrite E. simpl.
  apply PanicFacts.Kraken_range_panics_iff.
Qed.

(** A good entry followed by one whose ask price is a JSON number. *)
Lemma Kraken_panics_iff_witness :
  let good := ("XXBTZUSD"%string, {| Asks := level "10000"; Bids := level "9900" |}) in
  let bad := ("XETHZUSD"%string,
              {| Asks := [[ANumber one]]; Bids := level "9900" |}) in
  let r := {| Error := []; Result := [good; bad] |} in
  Error r = [] /\
  exists why, KrakenExchange_GetPrices strconv.ParseFloat_dec (Decoded r) = Panics why.
Proof.
  intros good bad r.
  assert (E : Error r = []) by reflexivity.
  split; [exact E|].
  apply (proj2 (Kraken_panics_iff strconv.ParseFloat_dec r E)).
  exists [good], (fst bad), (snd bad), []. split; [reflexivity|]. split.
  - constructor; [discriminate | constructor].
  - reflexivity.
Defined.

(** ** The Kraken result map with several entries *)

(** When the result map holds two entries that both yield a quote, the pair
    returned is the quote of whichever entry the loop visits second: the two
    iteration orders of the map give the two different answers. *)
Theorem Kraken_answer_follows_iteration_order ParseFloat k1 r1 k2 r2 q1 q2 :
  entry_quote ParseFloat r1 = Some q1 ->
  entry_quote ParseFloat r2 = Some q2 ->
  KrakenExchange_GetPrices ParseFloat
    (Decoded {| Error := []; Result := [(k1, r1); (k2, r2)] |})
    = Returns (fst q2, snd q2, None) /\
  KrakenExchange_GetPrices ParseFloat
    (Decoded {| Error := []; Result := [(k2, r2); (k1, r1)] |})
    = Returns (fst q1, snd q1, None).
Proof.
  destruct q1 as [a1 b1], q2 as [a2 b2]. intros Q1 Q2.
  cbn [KrakenExchange_GetPrices Error Result len List.length Z.of_nat Z.eqb negb].
  split.
  - rewrite (BookFacts.Kraken_range_quote ParseFloat k1 r1 _ zero zero a1 b1 Q1).
    now rewrite (BookFacts.Kraken_range_quote ParseFloat k2 r2 _ a1 b1 a2 b2 Q2).
  - rewrite (BookFacts.Kraken_range_quote ParseFloat k2 r2 _ zero zero a2 b2 Q2).
    now rewrite (BookFacts.Kraken_range_quote ParseFloat k1 r1 _ a2 b2 a1 b1 Q1).
Qed.

Lemma Kraken_answer_follows_iteration_order_witness :
  let r1 := {| Asks := level "10000"; Bids := level "9900" |} in
  let r2 := {| Asks := level "9900"; Bids := level "9800" |} in
  entry_quote strconv.ParseFloat_dec r1 = Some (f10000, f9900) /\
  entry_quote strconv.ParseFloat_dec r2 = Some (f9900, f9800) /\
  KrakenExchange_GetPrices strconv.ParseFloat_dec
    (Decoded {| Error := []; Result := [("XXBTZUSD"%string, r1); ("XBTUSD"%string, r2)] |})
    = Returns (f9900, f9800, None) /\
  KrakenExchange_GetPrices strconv.ParseFloat_dec
    (Decoded {| Error := []; Result := [("XBTUSD"%string, r2); ("XXBTZUSD"%string, r1)] |})
    = Returns (f10000, f9900, None).
Proof.
  intros r1 r2.
  assert (Q1 : entry_quote strconv.ParseFloat_dec r1 = Some (f10000, f9900))
    by reflexivity.
  assert (Q2 : entry_quote strconv.ParseFloat_dec r2 = Some (f9900, f9800))
    by reflexivity.
  split; [exact Q1|]. split; [exact Q2|].
  exact (Kraken_answer_follows_iteration_order strconv.ParseFloat_dec
           "XXBTZUSD" r1 "XBTUSD" r2 _ _ Q1 Q2).
Defined.

(** * Further properties of the order service *)

Module FilterFacts.

Import F64Facts SelectionFacts OrderFacts.
Local Open Scope f64_scope.

Section Select.

Variable better : float64 -> float64 -> bool.
Variable ok : Exchange -> bool.
Variable side : Exchange -> float64.
Variable sentinel : float64.

Hypothesis better_trans :
  forall a b c, better a b = true -> better b c = true -> better a c = true.
Hypothesis eq_better :
  forall a b c, (a =? b) = true -> better b c = true -> better a c = true.

Local Abbreviation iter := (select_iter better ok side).
Local Abbreviation can_win := (Agreement.can_win better ok side sentinel).
Local Abbreviation agree := (Agreement.agree better sentinel).

Lemma agree_can_win st st' e :
  can_win e = true -> agree st st' -> agree (iter st e) (iter st' e).
Proof.
  unfold Agreement.can_win, Agreement.agree, select_iter.
  destruct st as [p ws], st' as [p' ws'].
  simpl. intros Hc [<- H]. apply andb_true_iff in Hc. destruct Hc as [-> Hb].
  destruct (better (side e) p); [simpl; auto|].
  destruct (side e =? p); simpl; [|auto].
  split; [reflexivity|]. destruct H as [-> | [Hp ->]]; auto.
Qed.

Lemma agree_cannot_win st st' e :
  can_win e = false -> agree st st' -> agree (iter st e) st'.
Proof.
  unfold Agreement.can_win, Agreement.agree, select_iter.
  destruct st as [p ws], st' as [p' ws'].
  simpl. intros Hc [<- H].
  destruct (ok e); [simpl in Hc | auto].
  destruct (better (side e) p) eqn:Hb.
  { destruct H as [-> | [Hp _]]; [congruence|].
    rewrite (better_trans _ _ _ Hb Hp) in Hc. discriminate. }
  destruct (side e =? p) eqn:He; simpl; [|auto].
  split; [reflexivity|]. destruct H as [-> | [Hp _]]; [auto|].
  rewrite (eq_better _ _ _ He Hp) in Hc. discriminate.
Qed.

Lemma agree_fold exs : forall st st',
  agree st st' ->
  agree (fold_left iter exs st) (fold_left iter (filter can_win exs) st').
Proof.
  induction exs as [|e exs IH]; intros st st' H; [exact H|].
  cbn [filter fold_left]. destruct (can_win e) eqn:Hc.
  - cbn [fold_left]. apply IH. now apply agree_can_win.
  - apply IH. now apply agree_cannot_win.
Qed.

Lemma agree_select exs :
  agree (fold_left iter exs (sentinel, []))
        (fold_left iter (filter can_win exs) (sentinel, [])).
Proof. apply agree_fold. split; [reflexivity | now left]. Qed.

End Select.

Lemma Buy_range_select symbol exs :
  Buy_range symbol exs
  = fold_left (select_iter lt (succeeded symbol) (ask symbol)) exs (lit_1e18, []).
Proof. apply fold_left_pointwise, Buy_iter_select. Qed.

Lemma Sell_range_select symbol exs :
  Sell_range symbol exs
  = fold_left (select_iter gt (succeeded symbol) (bid symbol)) exs (zero, []).
Proof. apply fold_left_pointwise, Sell_iter_select. Qed.

Lemma Buy_range_usable symbol exs :
  Agreement.agree lt lit_1e18 (Buy_range symbol exs)
        (Buy_range symbol (filter (usable_ask symbol) exs)).
Proof.
  rewrite !Buy_range_select.
  apply (agree_select lt (succeeded symbol) (ask symbol) lit_1e18 lt_trans eq_lt_trans).
Qed.

Lemma Sell_range_usable symbol exs :
  Agreement.agree gt zero (Sell_range symbol exs)
        (Sell_range symbol (filter (usable_bid symbol) exs)).
Proof.
  rewrite !Sell_range_select.
  apply (agree_select gt (succeeded symbol) (bid symbol) zero gt_trans eq_gt_trans).
Qed.

(** Adapters that [Buy] cannot tell apart take the loop through the same
    states. *)
Lemma Buy_iter_same symbol st e e' :
  same_for_Buy symbol e e' -> Buy_iter symbol st e = Buy_iter symbol st e'.
Proof.
  rewrite !Buy_iter_select. unfold same_for_Buy, select_iter.
  destruct st as [p ws]. intros (-> & <- & Ha).
  destruct (succeeded symbol e); [|reflexivity]. now rewrite <- Ha.
Qed.

Lemma Sell_iter_same symbol st e e' :
  same_for_Sell symbol e e' -> Sell_iter symbol st e = Sell_iter symbol st e'.
Proof.
  rewrite !Sell_iter_select. unfold same_for_Sell, select_iter.
  destruct st as [p ws]. intros (-> & <- & Ha).
  destruct (succeeded symbol e); [|reflexivity]. now rewrite <- Ha.
Qed.

Lemma fold_left_Forall2 {A B : Type} (R : B -> B -> Prop) (f : A -> B -> A) l l' :
  (forall a b b', R b b' -> f a b = f a b') ->
  Forall2 R l l' -> forall a, fold_left f l a = fold_left f l' a.
Proof.
  intros Hf H. induction H as [|b b' l l' Hb _ IH]; intros a; [reflexivity|].
  simpl. rewrite (Hf a b b' Hb). apply IH.
Qed.

End FilterFacts.

(** ** Exactly when an order succeeds *)

(** [Buy] returns without error exactly when some adapter succeeds with an
    ask strictly below 1e18, and [Sell] exactly when some adapter succeeds
    with a bid strictly above 0. *)
Theorem order_succeeds_iff_usable_quote o amount symbol :
  (snd (Buy o amount symbol) = None <->
   exists e, In e (exchanges o) /\ usable_ask symbol e = true) /\
  (snd (Sell o amount symbol) = None <->
   exists e, In e (exchanges o) /\ usable_bid symbol e = true).
Proof.
  unfold usable_ask, usable_bid. split; split.
  - destruct (Buy o amount symbol) as [[usd ws] err] eqn:E. simpl. intros ->.
    destruct (Buy_ok _ _ _ _ _ E) as (p & w & _ & _ & _ & Hb & (e & He & Hok & Hp) & _).
    exists e. split; [assumption|]. now rewrite Hok, Hp.
  - intros (e & He & Hu). apply andb_true_iff in Hu. destruct Hu as [Hok Hlt].
    destruct (Buy_succeeds o amount symbol e He Hok Hlt) as (p & w & ->). reflexivity.
  - destruct (Sell o amount symbol) as [[usd ws] err] eqn:E. simpl. intros ->.
    destruct (Sell_ok _ _ _ _ _ E) as (p & w & _ & _ & _ & Hb & (e & He & Hok & Hp) & _).
    exists e. split; [assumption|]. now rewrite Hok, Hp.
  - intros (e & He & Hu). apply andb_true_iff in Hu. destruct Hu as [Hok Hlt].
    destruct (Sell_succeeds o amount symbol e He Hok Hlt) as (p & w & ->). reflexivity.
Qed.

(** Scenario D: coinbase is down, kraken quotes 9900. *)
Lemma order_succeeds_iff_usable_quote_witness :
  let kr := quoting "kraken" f9900 f9900 in
  let o := NewOrderService [down "coinbase"; kr] in
  (In kr (exchanges o) /\ usable_ask "BTC" kr = true /\ usable_bid "BTC" kr = true) /\
  snd (Buy o one "BTC") = None /\ snd (Sell o one "BTC") = None.
Proof.
  intros kr o.
  assert (Hin : In kr (exchanges o)) by (right; left; reflexivity).
  split; [repeat split; assumption|]. split.
  - apply (proj2 (proj1 (order_succeeds_iff_usable_quote o one "BTC"))).
    exists kr. split; [exact Hin | reflexivity].
  - apply (proj2 (proj2 (order_succeeds_iff_usable_quote o one "BTC"))).
    exists kr. split; [exact Hin | reflexivity].
Defined.

(** ** Adapters without effect *)

(** An adapter that fails, or that succeeds with an ask that is not strictly
    below 1e18 (NaN included), has no effect on [Buy]: removing all such
    adapters from the service changes nothing in what [Buy] returns.  The same
    holds for [Sell] and the bids that are not strictly above 0. *)
Theorem unusable_quotes_have_no_effect o amount symbol :
  Buy o amount symbol
    = Buy (NewOrderService (filter (usable_ask symbol) (exchanges o))) amount symbol /\
  Sell o amount symbol
    = Sell (NewOrderService (filter (usable_bid symbol) (exchanges o))) amount symbol.
Proof.
  split.
  - unfold Buy. cbn [exchanges NewOrderService].
    pose proof (FilterFacts.Buy_range_usable symbol (exchanges o)) as H.
    destruct (Buy_range symbol (exchanges o)) as [p ws].
    destruct (Buy_range symbol (filter (usable_ask symbol) (exchanges o))) as [p' ws'].
    destruct H as [Hp H]. simpl in Hp, H. subst p'.
    destruct (p =? lit_1e18) eqn:E; [reflexivity|].
    destruct H as [-> | [_ ->]]; [discriminate | reflexivity].
  - unfold Sell. cbn [exchanges NewOrderService].
    pose proof (FilterFacts.Sell_range_usable symbol (exchanges o)) as H.
    destruct (Sell_range symbol (exchanges o)) as [p ws].
    destruct (Sell_range symbol (filter (usable_bid symbol) (exchanges o))) as [p' ws'].
    destruct H as [Hp H]. simpl in Hp, H. subst p'.
    destruct (p =? zero) eqn:E; [reflexivity|].
    destruct H as [-> | [_ ->]]; [discriminate | reflexivity].
Qed.

(** ** More adapters *)

(** Consulting more adapters never worsens the outcome: if [Buy] succeeds for
    a service, it succeeds for every service whose adapters include those of
    the first, with a winning ask that is at most the first one; for [Sell],
    with a winning bid that is at least the first one. *)
Theorem more_adapters_never_worsen o o' amount symbol usd ws :
  incl (exchanges o) (exchanges o') ->
  (Buy o amount symbol = (usd, ws, None) ->
   exists p p' ws',
     fst (Buy_range symbol (exchanges o)) = p /\
     fst (Buy_range symbol (exchanges o')) = p' /\
     Buy o' amount symbol = (amount * p', Some ws', None) /\
     le p' p = true) /\
  (Sell o amount symbol = (usd, ws, None) ->
   exists p p' ws',
     fst (Sell_range symbol (exchanges o)) = p /\
     fst (Sell_range symbol (exchanges o')) = p' /\
     Sell o' amount symbol = (amount * p', Some ws', None) /\
     le p p' = true).
Proof.
  intros Hincl. split; intros H.
  - destruct (Buy_ok _ _ _ _ _ H)
      as (p & w & Hr & _ & _ & Hb & (e & He & Hok & Hp) & _ & _).
    assert (Hlt : (ask symbol e <? lit_1e18) = true) by now rewrite Hp.
    destruct (Buy_succeeds o' amount symbol e (Hincl e He) Hok Hlt) as (p0 & w0 & H').
    destruct (Buy_ok _ _ _ _ _ H')
      as (p' & w' & Hr' & [= <-] & Hu' & Hb' & _ & Hlow' & _).
    exists p, p', w0. rewrite Hr, Hr', <- Hu'. repeat split; try assumption.
    apply not_lt_le.
    + eapply lt_number_l; eassumption.
    + eapply lt_number_l; eassumption.
    + rewrite <- Hp. apply Hlow'; [apply (Hincl e He) | assumption].
  - destruct (Sell_ok _ _ _ _ _ H)
      as (p & w & Hr & _ & _ & Hb & (e & He & Hok & Hp) & _ & _).
    assert (Hlt : (bid symbol e >? zero) = true) by now rewrite Hp.
    destruct (Sell_succeeds o' amount symbol e (Hincl e He) Hok Hlt) as (p0 & w0 & H').
    destruct (Sell_ok _ _ _ _ _ H')
      as (p' & w' & Hr' & [= <-] & Hu' & Hb' & _ & Hlow' & _).
    exists p, p', w0. rewrite Hr, Hr', <- Hu'. repeat split; try assumption.
    apply not_lt_le.
    + eapply gt_number; eassumption.
    + eapply gt_number; eassumption.
    + rewrite <- gt_lt, <- Hp. apply Hlow'; [apply (Hincl e He) | assumption].
Qed.

(** Kraken alone asks 10000 and bids 9900; coinbase, added in front, asks
    9900 and bids 10000. *)
Lemma more_adapters_never_worsen_witness :
  let kr := quoting "kraken" f10000 f9900 in
  let cb := quoting "coinbase" f9900 f10000 in
  let o := NewOrderService [kr] in
  let o' := NewOrderService [cb; kr] in
  incl (exchanges o) (exchanges o') /\
  (exists p p' ws',
     fst (Buy_range "BTC" (exchanges o)) = p /\
     fst (Buy_range "BTC" (exchanges o')) = p' /\
     Buy o' one "BTC" = (one * p', Some ws', None) /\ le p' p = true) /\
  (exists p p' ws',
     fst (Sell_range "BTC" (exchanges o)) = p /\
     fst (Sell_range "BTC" (exchanges o')) = p' /\
     Sell o' one "BTC" = (one * p', Some ws', None) /\ le p p' = true).
Proof.
  intros kr cb o o'.
  assert (Hincl : incl (exchanges o) (exchanges o')).
  { intros e [<- | []]. right. left. reflexivity. }
  split; [exact Hincl|]. split.
  - apply (proj1 (more_adapters_never_worsen o o' one "BTC" f10000
                    (Some ["kraken"%string]) Hincl)).
    reflexivity.
  - apply (proj2 (more_adapters_never_worsen o o' one "BTC" f9900
                    (Some ["kraken"%string]) Hincl)).
    reflexivity.
Defined.

(** ** The side an order does not read *)

(** [Buy] depends on an adapter only through its name, whether its fetch
    succeeded, and its ask: two services whose adapters agree on these, one by
    one, give the same result, whatever the bids and the error texts.
    [Sell] likewise depends only on names, success and bids. *)
Theorem order_reads_one_side o o' amount symbol :
  (Forall2 (same_for_Buy symbol) (exchanges o) (exchanges o') ->
   Buy o amount symbol = Buy o' amount symbol) /\
  (Forall2 (same_for_Sell symbol) (exchanges o) (exchanges o') ->
   Sell o amount symbol = Sell o' amount symbol).
Proof.
  split; intros H.
  - unfold Buy, Buy_range.
    rewrite (FilterFacts.fold_left_Forall2 _ (Buy_iter symbol) _ _
               (fun st e e' => FilterFacts.Buy_iter_same symbol st e e') H).
    reflexivity.
  - unfold Sell, Sell_range.
    rewrite (FilterFacts.fold_left_Forall2 _ (Sell_iter symbol) _ _
               (fun st e e' => FilterFacts.Sell_iter_same symbol st e e') H).
    reflexivity.
Qed.

(** The same asks with different bids for [Buy]; the same bids with different
    asks for [Sell]. *)
Lemma order_reads_one_side_witness :
  let o := NewOrderService [quoting "coinbase" f9900 f9800; down "kraken"] in
  let ob := NewOrderService [quoting "coinbase" f9900 f5000; down "kraken"] in
  let os := NewOrderService [quoting "coinbase" f10000 f9800; down "kraken"] in
  Forall2 (same_for_Buy "BTC") (exchanges o) (exchanges ob) /\
  Forall2 (same_for_Sell "BTC") (exchanges o) (exchanges os) /\
  Buy o one "BTC" = Buy ob one "BTC" /\
  Sell o one "BTC" = Sell os one "BTC".
Proof.
  intros o ob os.
  assert (Hb : Forall2 (same_for_Buy "BTC") (exchanges o) (exchanges ob)).
  { repeat constructor; discriminate. }
  assert (Hs : Forall2 (same_for_Sell "BTC") (exchanges o) (exchanges os)).
  { repeat constructor; discriminate. }
  split; [exact Hb|]. split; [exact Hs|]. split.
  - exact (proj1 (order_reads_one_side o ob one "BTC") Hb).
  - exact (proj2 (order_reads_one_side o os one "BTC") Hs).
Defined.

(** * Further properties of the handlers *)

Module ResponseFacts.

Import F64Facts OrderFacts.
Local Open Scope f64_scope.

(** An error return of [Buy] or [Sell] has the amount 0, the nil slice and
    the text naming the symbol. *)
Lemma Buy_error o amount symbol usd ws msg :
  Buy o amount symbol = (usd, ws, Some msg) ->
  usd = zero /\ ws = None /\ msg = no_best_price symbol.
Proof.
  unfold Buy. destruct (Buy_range symbol (exchanges o)) as [p w].
  destruct (p =? lit_1e18); intros [= <- <- <-]; auto.
Qed.

Lemma Sell_error o amount symbol usd ws msg :
  Sell o amount symbol = (usd, ws, Some msg) ->
  usd = zero /\ ws = None /\ msg = no_best_price symbol.
Proof.
  unfold Sell. destruct (Sell_range symbol (exchanges o)) as [p w].
  destruct (p =? zero); intros [= <- <- <-]; auto.
Qed.

(** A return of [Buy] without error, in terms of the final state of its
    loop. *)
Lemma Buy_ok_min o amount symbol usd ws :
  Buy o amount symbol = (usd, ws, None) ->
  let p := fst (Buy_range symbol (exchanges o)) in
  let w := snd (Buy_range symbol (exchanges o)) in
  ws = Some w /\ usd = amount * p /\ is_min_ask symbol (exchanges o) p /\
  w = map GetName (filter (tied_ask symbol p) (exchanges o)) /\
  (1 <= List.length w)%nat.
Proof.
  intros H. destruct (Buy_ok _ _ _ _ _ H)
    as (p & w & Hr & -> & -> & Hb & (e & He & Hok & Hp) & Hlow & Hw).
  rewrite Hr. cbn [fst snd].
  assert (Hn : (p =? p) = true) by (eapply lt_number_l; eassumption).
  repeat split; try assumption.
  - exists e. auto.
  - now apply Hlow.
  - intros Hnan. apply not_lt_le; try assumption.
    + now rewrite eq_refl_iff, Hnan.
    + now apply Hlow.
  - assert (Hin : In (GetName e) w).
    { rewrite Hw. apply in_map, filter_In. split; [assumption|].
      unfold tied_ask. now rewrite Hok, Hp, Hn. }
    destruct w; [destruct Hin | simpl; lia].
Qed.

Lemma Sell_ok_max o amount symbol usd ws :
  Sell o amount symbol = (usd, ws, None) ->
  let p := fst (Sell_range symbol (exchanges o)) in
  let w := snd (Sell_range symbol (exchanges o)) in
  ws = Some w /\ usd = amount * p /\ is_max_bid symbol (exchanges o) p /\
  w = map GetName (filter (tied_bid symbol p) (exchanges o)) /\
  (1 <= List.length w)%nat.
Proof.
  intros H. destruct (Sell_ok _ _ _ _ _ H)
    as (p & w & Hr & -> & -> & Hb & (e & He & Hok & Hp) & Hlow & Hw).
  rewrite Hr. cbn [fst snd].
  assert (Hn : (p =? p) = true) by (eapply gt_number; eassumption).
  repeat split; try assumption.
  - exists e. auto.
  - now apply Hlow.
  - intros Hnan. apply not_lt_le; try assumption.
    + now rewrite eq_refl_iff, Hnan.
    + rewrite <- gt_lt. now apply Hlow.
  - assert (Hin : In (GetName e) w).
    { rewrite Hw. apply in_map, filter_In. split; [assumption|].
      unfold tied_bid. now rewrite Hok, Hp, Hn. }
    destruct w; [destruct Hin | simpl; lia].
Qed.

(** The three answers of [JSON_order]. *)
Lemma JSON_order_cases coin amount usd ws :
  (unsupported_value amount = None -> unsupported_value usd = None ->
   JSON_order coin amount usd ws
   = {| Status := StatusOK; JSON := OrderBody coin amount usd ws |}) /\
  (forall value, unsupported_value amount = Some value ->
   JSON_order coin amount usd ws
   = {| Status := StatusInternalServerError;
        JSON := TextBody ("json: unsupported value: " ++ value) |}) /\
  (forall value, unsupported_value amount = None ->
   unsupported_value usd = Some value ->
   JSON_order coin amount usd ws
   = {| Status := StatusInternalServerError;
        JSON := TextBody ("json: unsupported value: " ++ value) |}).
Proof.
  unfold JSON_order, json_failure. repeat split.
  - now intros -> ->.
  - now intros value ->.
  - now intros value -> ->.
Qed.

(** A 200 answer of [JSON_order] carries the values it was given, and they
    are floats the encoder accepts. *)
Lemma JSON_order_ok coin amount usd ws :
  Status (JSON_order coin amount usd ws) = StatusOK ->
  JSON (JSON_order coin amount usd ws) = OrderBody coin amount usd ws /\
  unsupported_value amount = None /\ unsupported_value usd = None.
Proof.
  unfold JSON_order, json_failure.
  destruct (unsupported_value amount); [discriminate|].
  destruct (unsupported_value usd); [discriminate|]. auto.
Qed.

(** An amount that passed the check was parsed without error. *)
Lemma QueryFloat_accepted ParseFloat c :
  (QueryFloat ParseFloat c "amount" zero =? zero) = false ->
  snd (ParseFloat (Query c "amount")) = None /\
  QueryFloat ParseFloat c "amount" zero = fst (ParseFloat (Query c "amount")).
Proof.
  unfold QueryFloat.
  destruct (ParseFloat (Query c "amount")) as [v [msg|]]; [discriminate | auto].
Qed.

End ResponseFacts.

(** ** From the request to the response *)

(** For a request whose amount passes the check, [BuyHandler] answers 500
    with the text "failed to find best price for " and the raw symbol when no
    adapter succeeds with an ask below 1e18.  Otherwise the price is the
    minimum ask among the successful adapters and the winners are the
    adapters tied at it, in adapter order and at least one.  The answer is
    then 200 with the raw symbol, the parsed amount, the amount times that
    price and the winners, provided the amount and the product are floats
    the JSON encoder accepts; when the amount, or else the product, is NaN or
    infinite, the answer is 500 with the text of the encoder's error, which
    names that value. *)
Theorem BuyHandler_response ParseFloat oc c :
  let amount := QueryFloat ParseFloat c "amount" zero in
  let symbol := Query c "symbol" in
  let exs := exchanges (orderService oc) in
  let p := fst (Buy_range symbol exs) in
  let ws := snd (Buy_range symbol exs) in
  (amount =? zero) = false ->
  ((forall e, In e exs -> usable_ask symbol e = false) ->
   fst (BuyHandler ParseFloat oc c)
   = {| Status := StatusInternalServerError;
        JSON := ErrorBody ("failed to find best price for " ++ symbol) |}) /\
  ((exists e, In e exs /\ usable_ask symbol e = true) ->
   is_min_ask symbol exs p /\
   ws = map GetName (filter (tied_ask symbol p) exs) /\
   (1 <= List.length ws)%nat /\
   (unsupported_value amount = None -> unsupported_value (amount * p) = None ->
    fst (BuyHandler ParseFloat oc c)
    = {| Status := StatusOK;
         JSON := OrderBody symbol amount (amount * p) (Some ws) |}) /\
   (forall value, unsupported_value amount = Some value ->
    fst (BuyHandler ParseFloat oc c)
    = {| Status := StatusInternalServerError;
         JSON := TextBody ("json: unsupported value: " ++ value) |}) /\
   (forall value, unsupported_value amount = None ->
    unsupported_value (amount * p) = Some value ->
    fst (BuyHandler ParseFloat oc c)
    = {| Status := StatusInternalServerError;
         JSON := TextBody ("json: unsupported value: " ++ value) |})).
Proof.
  intros amount symbol exs p ws Hamount. unfold BuyHandler.
  fold amount. rewrite Hamount. fold symbol.
  destruct (Buy (orderService oc) amount symbol) as [[usd w] [msg|]] eqn:E; split.
  - intros _. destruct (ResponseFacts.Buy_error _ _ _ _ _ _ E) as (_ & _ & ->).
    reflexivity.
  - intros (e & He & Hu). unfold usable_ask in Hu.
    apply andb_true_iff in Hu. destruct Hu as [Hok Hlt].
    destruct (Buy_succeeds (orderService oc) amount symbol e He Hok Hlt)
      as (p0 & w0 & H). rewrite H in E. discriminate.
  - intros Hnone.
    destruct (Buy_ok _ _ _ _ _ E) as (p0 & w0 & _ & _ & _ & Hb & (e & He & Hok & Hp) & _).
    specialize (Hnone e He). unfold usable_ask in Hnone.
    rewrite Hok, Hp, Hb in Hnone. discriminate.
  - intros _.
    destruct (ResponseFacts.Buy_ok_min _ _ _ _ _ E) as (-> & -> & Hmin & Hw & Hl).
    fold exs p ws in Hmin, Hw, Hl |- *. cbn [fst].
    do 3 (split; [assumption|]).
    apply ResponseFacts.JSON_order_cases.
Qed.

(** The requests of the test table (best price on coinbase; both sources
    down), and the amount 2 against an ask of minus the largest float, whose
    product is minus infinity. *)
Lemma BuyHandler_response_witness :
  let c := request [("amount", "1"); ("symbol", "BTC")]%string in
  let c2 := request [("amount", "2"); ("symbol", "BTC")]%string in
  let up := service [quoting "coinbase" f9900 f9900; quoting "kraken" f10000 f10000] in
  let dn := service [down "coinbase"; down "kraken"] in
  let low := service [quoting "coinbase" neg_max_float f9900] in
  (QueryFloat strconv.ParseFloat_dec c "amount" zero =? zero) = false /\
  (QueryFloat strconv.ParseFloat_dec c2 "amount" zero =? zero) = false /\
  fst (BuyHandler strconv.ParseFloat_dec dn c)
    = {| Status := StatusInternalServerError;
         JSON := ErrorBody "failed to find best price for BTC" |} /\
  fst (BuyHandler strconv.ParseFloat_dec up c)
    = {| Status := StatusOK;
         JSON := OrderBody "BTC" one (one * f9900) (Some ["coinbase"%string]) |} /\
  fst (BuyHandler strconv.ParseFloat_dec low c2)
    = {| Status := StatusInternalServerError;
         JSON := TextBody "json: unsupported value: -Inf" |}.
Proof.
  intros c c2 up dn low.
  assert (Ha : (QueryFloat strconv.ParseFloat_dec c "amount" zero =? zero) = false)
    by reflexivity.
  assert (Ha2 : (QueryFloat strconv.ParseFloat_dec c2 "amount" zero =? zero) = false)
    by reflexivity.
  split; [exact Ha|]. split; [exact Ha2|]. split; [|split].
  - apply (proj1 (BuyHandler_response strconv.ParseFloat_dec dn c Ha)).
    intros e [<- | [<- | []]]; reflexivity.
  - destruct (proj2 (BuyHandler_response strconv.ParseFloat_dec up c Ha))
      as (_ & _ & _ & Hok & _).
    + eexists. split; [left; reflexivity | reflexivity].
    + apply Hok; reflexivity.
  - destruct (proj2 (BuyHandler_response strconv.ParseFloat_dec low c2 Ha2))
      as (_ & _ & _ & _ & _ & Hinf).
    + eexists. split; [left; reflexivity | reflexivity].
    + apply (Hinf "-Inf"%string); reflexivity.
Defined.

(** For a request whose amount passes the check, [SellHandler] answers 500
    with the text "failed to find best price for " and the raw symbol when no
    adapter succeeds with a bid above 0.  Otherwise the price is the maximum
    bid among the successful adapters and the winners are the adapters tied
    at it, in adapter order and at least one.  The answer is then 200 with
    the raw symbol, the parsed amount, the amount times that price and the
    winners, provided the amount and the product are floats the JSON encoder
    accepts; when the amount, or else the product, is NaN or infinite, the
    answer is 500 with the text of the encoder's error, which names that
    value. *)
Theorem SellHandler_response ParseFloat oc c :
  let amount := QueryFloat ParseFloat c "amount" zero in
  let symbol := Query c "symbol" in
  let exs := exchanges (orderService oc) in
  let p := fst (Sell_range symbol exs) in
  let ws := snd (Sell_range symbol exs) in
  (amount =? zero) = false ->
  ((forall e, In e exs -> usable_bid symbol e = false) ->
   fst (SellHandler ParseFloat oc c)
   = {| Status := StatusInternalServerError;
        JSON := ErrorBody ("failed to find best price for " ++ symbol) |}) /\
  ((exists e, In e exs /\ usable_bid symbol e = true) ->
   is_max_bid symbol exs p /\
   ws = map GetName (filter (tied_bid symbol p) exs) /\
   (1 <= List.length ws)%nat /\
   (unsupported_value amount = None -> unsupported_value (amount * p) = None ->
    fst (SellHandler ParseFloat oc c)
    = {| Status := StatusOK;
         JSON := OrderBody symbol amount (amount * p) (Some ws) |}) /\
   (forall value, unsupported_value amount = Some value ->
    fst (SellHandler ParseFloat oc c)
    = {| Status := StatusInternalServerError;
         JSON := TextBody ("json: unsupported value: " ++ value) |}) /\
   (forall value, unsupported_value amount = None ->
    unsupported_value (amount * p) = Some value ->
    fst (SellHandler ParseFloat oc c)
    = {| Status := StatusInternalServerError;
         JSON := TextBody ("json: unsupported value: " ++ value) |})).
Proof.
  intros amount symbol exs p ws Hamount. unfold SellHandler.
  fold amount. rewrite Hamount. fold symbol.
  destruct (Sell (orderService oc) amount symbol) as [[usd w] [msg|]] eqn:E; split.
  - intros _. destruct (ResponseFacts.Sell_error _ _ _ _ _ _ E) as (_ & _ & ->).
    reflexivity.
  - intros (e & He & Hu). unfold usable_bid in Hu.
    apply andb_true_iff in Hu. destruct Hu as [Hok Hlt].
    destruct (Sell_succeeds (orderService oc) amount symbol e He Hok Hlt)
      as (p0 & w0 & H). rewrite H in E. discriminate.
  - intros Hnone.
    destruct (Sell_ok _ _ _ _ _ E) as (p0 & w0 & _ & _ & _ & Hb & (e & He & Hok & Hp) & _).
    specialize (Hnone e He). unfold usable_bid in Hnone.
    rewrite Hok, Hp, Hb in Hnone. discriminate.
  - intros _.
    destruct (ResponseFacts.Sell_ok_max _ _ _ _ _ E) as (-> & -> & Hmax & Hw & Hl).
    fold exs p ws in Hmax, Hw, Hl |- *. cbn [fst].
    do 3 (split; [assumption|]).
    apply ResponseFacts.JSON_order_cases.
Qed.

(** Selling 0.5 in the test table's setting, both sources down, and the
    amount 2 against a bid of the largest float, whose product is plus
    infinity. *)
Lemma SellHandler_response_witness :
  let c := request [("amount", "0.5"); ("symbol", "BTC")]%string in
  let c2 := request [("amount", "2"); ("symbol", "BTC")]%string in
  let up := service [quoting "coinbase" f9900 f9900; quoting "kraken" f10000 f10000] in
  let dn := service [down "coinbase"; down "kraken"] in
  let high := service [quoting "coinbase" f9900 max_float] in
  (QueryFloat strconv.ParseFloat_dec c "amount" zero =? zero) = false /\
  (QueryFloat strconv.ParseFloat_dec c2 "amount" zero =? zero) = false /\
  fst (SellHandler strconv.ParseFloat_dec dn c)
    = {| Status := StatusInternalServerError;
         JSON := ErrorBody "failed to find best price for BTC" |} /\
  fst (SellHandler strconv.ParseFloat_dec up c)
    = {| Status := StatusOK;
         JSON := OrderBody "BTC" half (half * f10000) (Some ["kraken"%string]) |} /\
  fst (SellHandler strconv.ParseFloat_dec high c2)
    = {| Status := StatusInternalServerError;
         JSON := TextBody "json: unsupported value: +Inf" |}.
Proof.
  intros c c2 up dn high.
  assert (Ha : (QueryFloat strconv.ParseFloat_dec c "amount" zero =? zero) = false)
    by reflexivity.
  assert (Ha2 : (QueryFloat strconv.ParseFloat_dec c2 "amount" zero =? zero) = false)
    by reflexivity.
  split; [exact Ha|]. split; [exact Ha2|]. split; [|split].
  - apply (proj1 (SellHandler_response strconv.ParseFloat_dec dn c Ha)).
    intros e [<- | [<- | []]]; reflexivity.
  - destruct (proj2 (SellHandler_response strconv.ParseFloat_dec up c Ha))
      as (_ & _ & _ & Hok & _).
    + eexists. split; [left; reflexivity | reflexivity].
    + apply Hok; reflexivity.
  - destruct (proj2 (SellHandler_response strconv.ParseFloat_dec high c2 Ha2))
      as (_ & _ & _ & _ & _ & Hinf).
    + eexists. split; [left; reflexivity | reflexivity].
    + apply (Hinf "+Inf"%string); reflexivity.
Defined.

(** ** What a 200 answer carries *)

(** A handler answers 200 only with numbers that can be trusted: the amount
    is the value parsed from the query, it is not zero and neither NaN nor
    infinite; the order service, called with that amount and the raw symbol,
    returned without error; the amount in the answer is the product of the
    amount and the minimum ask (for [SellHandler], the maximum bid) among the
    successful adapters, and it is neither NaN nor infinite; the list of
    winners is not empty. *)
Theorem ok_answers_come_from_the_service ParseFloat oc c :
  let amount := fst (ParseFloat (Query c "amount")) in
  let symbol := Query c "symbol" in
  let exs := exchanges (orderService oc) in
  (Status (fst (BuyHandler ParseFloat oc c)) = StatusOK ->
   let p := fst (Buy_range symbol exs) in
   let ws := snd (Buy_range symbol exs) in
   snd (ParseFloat (Query c "amount")) = None /\ (amount =? zero) = false /\
   Buy (orderService oc) amount symbol = (amount * p, Some ws, None) /\
   JSON (fst (BuyHandler ParseFloat oc c))
     = OrderBody symbol amount (amount * p) (Some ws) /\
   unsupported_value amount = None /\ unsupported_value (amount * p) = None /\
   is_min_ask symbol exs p /\ (1 <= List.length ws)%nat) /\
  (Status (fst (SellHandler ParseFloat oc c)) = StatusOK ->
   let p := fst (Sell_range symbol exs) in
   let ws := snd (Sell_range symbol exs) in
   snd (ParseFloat (Query c "amount")) = None /\ (amount =? zero) = false /\
   Sell (orderService oc) amount symbol = (amount * p, Some ws, None) /\
   JSON (fst (SellHandler ParseFloat oc c))
     = OrderBody symbol amount (amount * p) (Some ws) /\
   unsupported_value amount = None /\ unsupported_value (amount * p) = None /\
   is_max_bid symbol exs p /\ (1 <= List.length ws)%nat).
Proof.
  intros amount symbol exs. split.
  - unfold BuyHandler. fold symbol.
    destruct (QueryFloat ParseFloat c "amount" zero =? zero) eqn:Hz; [discriminate|].
    destruct (ResponseFacts.QueryFloat_accepted ParseFloat c Hz) as [Hp Hq].
    fold amount in Hq. rewrite Hq in Hz |- *.
    destruct (Buy (orderService oc) amount symbol) as [[usd w] [msg|]] eqn:E;
      cbn [fst]; [discriminate|].
    intros Hs.
    destruct (ResponseFacts.Buy_ok_min _ _ _ _ _ E) as (Hw & Hu & Hmin & _ & Hl).
    fold exs in Hw, Hu, Hmin, Hl. subst usd w.
    destruct (ResponseFacts.JSON_order_ok _ _ _ _ Hs) as (Hj & Hua & Huu).
    split; [assumption|]. split; [assumption|]. split; [reflexivity|].
    do 4 (split; [assumption|]). assumption.
  - unfold SellHandler. fold symbol.
    destruct (QueryFloat ParseFloat c "amount" zero =? zero) eqn:Hz; [discriminate|].
    destruct (ResponseFacts.QueryFloat_accepted ParseFloat c Hz) as [Hp Hq].
    fold amount in Hq. rewrite Hq in Hz |- *.
    destruct (Sell (orderService oc) amount symbol) as [[usd w] [msg|]] eqn:E;
      cbn [fst]; [discriminate|].
    intros Hs.
    destruct (ResponseFacts.Sell_ok_max _ _ _ _ _ E) as (Hw & Hu & Hmax & _ & Hl).
    fold exs in Hw, Hu, Hmax, Hl. subst usd w.
    destruct (ResponseFacts.JSON_order_ok _ _ _ _ Hs) as (Hj & Hua & Huu).
    split; [assumption|]. split; [assumption|]. split; [reflexivity|].
    do 4 (split; [assumption|]). assumption.
Qed.

(** The fractional requests of the test table. *)
Lemma ok_answers_come_from_the_service_witness :
  let c := request [("amount", "0.5"); ("symbol", "BTC")]%string in
  let oc := service [quoting "coinbase" f10000 f9900; quoting "kraken" f9900 f10000] in
  Status (fst (BuyHandler strconv.ParseFloat_dec oc c)) = StatusOK /\
  Status (fst (SellHandler strconv.ParseFloat_dec oc c)) = StatusOK /\
  Buy (orderService oc) half "BTC" = (half * f9900, Some ["kraken"%string], None) /\
  JSON (fst (BuyHandler strconv.ParseFloat_dec oc c))
    = OrderBody "BTC" half (half * f9900) (Some ["kraken"%string]) /\
  Sell (orderService oc) half "BTC" = (half * f10000, Some ["kraken"%string], None) /\
  JSON (fst (SellHandler strconv.ParseFloat_dec oc c))
    = OrderBody "BTC" half (half * f10000) (Some ["kraken"%string]).
Proof.
  intros c oc.
  assert (Hb : Status (fst (BuyHandler strconv.ParseFloat_dec oc c)) = StatusOK)
    by reflexivity.
  assert (Hs : Status (fst (SellHandler strconv.ParseFloat_dec oc c)) = StatusOK)
    by reflexivity.
  destruct (proj1 (ok_answers_come_from_the_service strconv.ParseFloat_dec oc c) Hb)
    as (_ & _ & HB & HJ & _).
  destruct (proj2 (ok_answers_come_from_the_service strconv.ParseFloat_dec oc c) Hs)
    as (_ & _ & HS & HJ' & _).
  repeat split; assumption.
Defined.
